(** * Blackjack trainer: engine, basic strategy and Hi-Lo counter

    A shallow embedding of [blackjack_engine.py], of the strategy resolver of
    [basic_strategy.py], of [HiLoCounter.get_true_count] of
    [counting_system.py] and of the player-turn loop of
    [FullGameSimulator.play_round] in [training_modes.py], followed by the
    properties the specification states about them.

    Conventions of the embedding.
    - Python [int] is [Z]; lengths and the hand cursor, which only count up
      from zero, are [nat].
    - Python [float] amounts (bets, payouts, deck fractions) are exact
      rationals [Q]; rounding of binary floating point is not modelled.
    - A Python list is a list in the same order: [append] adds at the
      end, [pop()] removes the last element.
    - A raised exception is the [Raise] branch of [result]; the state a
      raising call leaves behind is not kept. *)

From Stdlib Require Import String ZArith QArith Qround Qabs.
From Stdlib Require Import List Bool Lia Lqa Permutation.
Import ListNotations.
Local Open Scope Z_scope.

(** ** Exceptions *)

Inductive exn : Type :=
| Exception (msg : string)
| ValueError (msg : string)
| IndexError
| ZeroDivisionError.

Inductive result (A : Type) : Type :=
| Ok (a : A)
| Raise (e : exn).

Arguments Ok {A} a.
Arguments Raise {A} e.

Definition bind {A B : Type} (c : result A) (k : A -> result B) : result B :=
  match c with
  | Ok a => k a
  | Raise e => Raise e
  end.

Notation "x <- c1 ;; c2" := (bind c1 (fun x => c2))
  (at level 61, c1 at next level, right associativity).
Notation "' pat <- c1 ;; c2" := (bind c1 (fun x => match x with pat => c2 end))
  (at level 61, pat pattern, c1 at next level, right associativity).

(** ** Python list helpers *)

(** [l[i] = x] for an index in range (the hands are mutated in place). *)
Definition list_set {A : Type} (l : list A) (i : nat) (x : A) : list A :=
  firstn i l ++ x :: skipn (S i) l.

(** [l.insert(i, x)] for a non-negative [i]: past the end it appends. *)
Definition list_insert {A : Type} (l : list A) (i : nat) (x : A) : list A :=
  firstn i l ++ x :: skipn i l.

(** [d.get(k)] on a dict written as its list of items. *)
Fixpoint dict_get {K V : Type} (eqb : K -> K -> bool) (k : K)
  (d : list (K * V)) : option V :=
  match d with
  | [] => None
  | (k', v) :: d' => if eqb k k' then Some v else dict_get eqb k d'
  end.

(** ** Python number helpers *)

(** [int(x)] on a float: truncation towards zero. *)
Definition py_int (x : Q) : Z := Z.quot (Qnum x) (Z.pos (Qden x)).

(** [max(a, b)] and [min(a, b)]: the first argument unless the second is
    strictly larger (strictly smaller). *)
Definition py_max (a b : Q) : Q := if Qlt_le_dec a b then b else a.

Definition py_min (a b : Q) : Q := if Qlt_le_dec b a then b else a.

(** ** Cards *)

Inductive Suit : Type := HEARTS | DIAMONDS | CLUBS | SPADES.

(** The thirteen rank strings ['2'] .. ['10'], ['J'], ['Q'], ['K'], ['A']. *)
Inductive Rank : Type :=
| Two | Three | Four | Five | Six | Seven | Eight | Nine | Ten
| Jack | Queen | King | Ace.

Definition Rank_eqb (a b : Rank) : bool :=
  match a, b with
  | Two, Two | Three, Three | Four, Four | Five, Five | Six, Six
  | Seven, Seven | Eight, Eight | Nine, Nine | Ten, Ten
  | Jack, Jack | Queen, Queen | King, King | Ace, Ace => true
  | _, _ => false
  end.

(** [int(rank)] on the numeric rank strings. *)
Definition int_of_rank (r : Rank) : Z :=
  match r with
  | Two => 2 | Three => 3 | Four => 4 | Five => 5 | Six => 6 | Seven => 7
  | Eight => 8 | Nine => 9 | Ten => 10
  | Jack | Queen | King | Ace => 0
  end.

Module Card.

Record t : Type := mk { rank : Rank; suit : Suit }.

Definition value (self : t) : Z :=
  match rank self with
  | Jack | Queen | King => 10
  | Ace => 11
  | r => int_of_rank r
  end.

Definition hi_lo_value (self : t) : Z :=
  match rank self with
  | Two | Three | Four | Five | Six => 1
  | Ten | Jack | Queen | King | Ace => -1
  | Seven | Eight | Nine => 0
  end.

End Card.

(** ** The shoe *)

Module Deck.

Record t : Type := mk {
  num_decks : nat;
  cards : list Card.t;
  discards : list Card.t;
  cut_card_position : Z
}.

Definition ranks : list Rank :=
  [Two; Three; Four; Five; Six; Seven; Eight; Nine; Ten; Jack; Queen; King; Ace].

Definition suits : list Suit := [HEARTS; DIAMONDS; CLUBS; SPADES].

(** The two inner loops of [reset]: every rank in every suit. *)
Definition one_deck : list Card.t :=
  flat_map (fun rank => map (fun suit => Card.mk rank suit) suits) ranks.

(** The outer loop [for _ in range(num_decks)]. *)
Fixpoint fresh_cards (n : nat) : list Card.t :=
  match n with
  | O => []
  | S n' => fresh_cards n' ++ one_deck
  end.

(** [random.shuffle]: some rearrangement of the list it is given. *)
Record Shuffle : Type := mkShuffle {
  shuffle : list Card.t -> list Card.t;
  shuffle_perm : forall l, Permutation l (shuffle l)
}.

(** [int(len(self.cards) * 0.25)]: truncation of a non-negative product. *)
Definition cut_of_len (len : nat) : Z :=
  Qfloor (inject_Z (Z.of_nat len) * (1 # 4)).

Definition reset (rng : Shuffle) (self : t) : t :=
  let cards := shuffle rng (fresh_cards (num_decks self)) in
  mk (num_decks self) cards [] (cut_of_len (length cards)).

(** [__init__]: empty lists, cut position 0, then [reset]. *)
Definition init (rng : Shuffle) (num_decks : nat) : t :=
  reset rng (mk num_decks [] [] 0).

Definition deal_card (self : t) : result (Card.t * t) :=
  if (length (cards self) =? 0)%nat
  then Raise (Exception "Deck is empty!"%string)
  else
    match rev (cards self) with
    | [] => Raise IndexError
    | card :: rest =>
        Ok (card,
            mk (num_decks self) (rev rest) (discards self ++ [card])
               (cut_card_position self))
    end.

Definition cards_remaining (self : t) : nat := length (cards self).

Definition decks_remaining (self : t) : Q :=
  inject_Z (Z.of_nat (length (cards self))) / 52.

Definition needs_shuffle (self : t) : bool :=
  Z.of_nat (length (cards self)) <=? cut_card_position self.

End Deck.

(** ** Hands *)

Module Hand.

Record t : Type := mk {
  cards : list Card.t;
  bet : Q;
  is_split : bool;
  is_doubled : bool;
  is_surrendered : bool;
  is_insured : bool
}.

Definition init : t := mk [] 0%Q false false false false.

Definition set_cards (self : t) (cs : list Card.t) : t :=
  mk cs (bet self) (is_split self) (is_doubled self) (is_surrendered self)
     (is_insured self).

Definition set_bet (self : t) (b : Q) : t :=
  mk (cards self) b (is_split self) (is_doubled self) (is_surrendered self)
     (is_insured self).

Definition set_is_split (self : t) (b : bool) : t :=
  mk (cards self) (bet self) b (is_doubled self) (is_surrendered self)
     (is_insured self).

Definition set_is_doubled (self : t) (b : bool) : t :=
  mk (cards self) (bet self) (is_split self) b (is_surrendered self)
     (is_insured self).

Definition set_is_surrendered (self : t) (b : bool) : t :=
  mk (cards self) (bet self) (is_split self) (is_doubled self) b
     (is_insured self).

Definition set_is_insured (self : t) (b : bool) : t :=
  mk (cards self) (bet self) (is_split self) (is_doubled self)
     (is_surrendered self) b.

Definition add_card (self : t) (card : Card.t) : t :=
  set_cards self (cards self ++ [card]).

(** One iteration of the [for card in self.cards] loop shared by [value]
    and [is_soft]; the accumulator is [(total, aces)]. *)
Definition count_card (acc : Z * nat) (card : Card.t) : Z * nat :=
  let '(total, aces) := acc in
  if Rank_eqb (Card.rank card) Ace then (total + 11, S aces)
  else (total + Card.value card, aces).

Definition count_cards (cs : list Card.t) : Z * nat :=
  fold_left count_card cs (0, O).

(** [while total > 21 and aces > 0: total -= 10; aces -= 1]. *)
Fixpoint adjust_for_aces (aces : nat) (total : Z) : Z :=
  match aces with
  | O => total
  | S aces' =>
      if total >? 21 then adjust_for_aces aces' (total - 10) else total
  end.

Definition value (self : t) : Z :=
  let '(total, aces) := count_cards (cards self) in
  adjust_for_aces aces total.

Definition is_soft (self : t) : bool :=
  let '(total, aces) := count_cards (cards self) in
  if (0 <? aces)%nat && (total <=? 21) then true else false.

Definition is_blackjack (self : t) : bool :=
  (length (cards self) =? 2)%nat && (value self =? 21).

Definition is_bust (self : t) : bool := value self >? 21.

Definition is_pair (self : t) : bool :=
  if negb (length (cards self) =? 2)%nat then false
  else
    match cards self with
    | c0 :: c1 :: _ => Rank_eqb (Card.rank c0) (Card.rank c1)
    | _ => false
    end.

Definition can_split (self : t) : bool := is_pair self && negb (is_split self).

Definition can_double (self : t) : bool :=
  (length (cards self) =? 2)%nat && negb (is_doubled self).

End Hand.

(** ** House rules *)

Module GameRules.

Record t : Type := mk {
  num_decks : nat;
  dealer_hits_soft_17 : bool;
  blackjack_payout : Q;
  can_surrender : bool;
  can_double_after_split : bool;
  can_resplit_aces : bool;
  max_splits : Z;
  min_bet : Q;
  max_bet : Q;
  penetration : Q
}.

(** The dataclass defaults. *)
Definition default : t :=
  mk 6 false (3 # 2) true true false 3 10%Q 500%Q (3 # 4).

End GameRules.

(** ** The game controller *)

Module BlackjackGame.

Record t : Type := mk {
  rules : GameRules.t;
  deck : Deck.t;
  player_hands : list Hand.t;
  dealer_hand : Hand.t;
  current_hand_index : nat
}.

Definition set_deck (self : t) (d : Deck.t) : t :=
  mk (rules self) d (player_hands self) (dealer_hand self)
     (current_hand_index self).

Definition set_player_hands (self : t) (hs : list Hand.t) : t :=
  mk (rules self) (deck self) hs (dealer_hand self) (current_hand_index self).

Definition set_dealer_hand (self : t) (h : Hand.t) : t :=
  mk (rules self) (deck self) (player_hands self) h (current_hand_index self).

Definition set_current_hand_index (self : t) (i : nat) : t :=
  mk (rules self) (deck self) (player_hands self) (dealer_hand self) i.

Definition init (rng : Deck.Shuffle) (rules : GameRules.t) : t :=
  mk rules (Deck.init rng (GameRules.num_decks rules)) [] Hand.init O.

Definition new_round (rng : Deck.Shuffle) (self : t) : t :=
  let deck :=
    if Deck.needs_shuffle (deck self) then Deck.reset rng (deck self)
    else deck self in
  mk (rules self) deck [Hand.init] Hand.init O.

Definition place_bet (self : t) (amount : Q) : result t :=
  if Qlt_le_dec amount (GameRules.min_bet (rules self))
  then Raise (ValueError "Bet must be between min_bet and max_bet"%string)
  else if Qlt_le_dec (GameRules.max_bet (rules self)) amount
  then Raise (ValueError "Bet must be between min_bet and max_bet"%string)
  else
    match player_hands self with
    | [] => Raise IndexError
    | h :: hs => Ok (set_player_hands self (Hand.set_bet h amount :: hs))
    end.

(** The deal pattern player, dealer, player, dealer. *)
Definition deal_initial_cards (self : t) : result t :=
  match player_hands self with
  | [] => Raise IndexError
  | h0 :: hs =>
      '(c1, deck1) <- Deck.deal_card (deck self) ;;
      let h0 := Hand.add_card h0 c1 in
      '(c2, deck2) <- Deck.deal_card deck1 ;;
      let dealer := Hand.add_card (dealer_hand self) c2 in
      '(c3, deck3) <- Deck.deal_card deck2 ;;
      let h0 := Hand.add_card h0 c3 in
      '(c4, deck4) <- Deck.deal_card deck3 ;;
      let dealer := Hand.add_card dealer c4 in
      Ok (mk (rules self) deck4 (h0 :: hs) dealer (current_hand_index self))
  end.

(** [self.player_hands[self.current_hand_index]]. *)
Definition get_current_hand (self : t) : result Hand.t :=
  match nth_error (player_hands self) (current_hand_index self) with
  | Some hand => Ok hand
  | None => Raise IndexError
  end.

(** Writing a mutated current hand back at the cursor. *)
Definition put_current_hand (self : t) (hand : Hand.t) : t :=
  set_player_hands self
    (list_set (player_hands self) (current_hand_index self) hand).

Definition hit (self : t) : result (Card.t * t) :=
  hand <- get_current_hand self ;;
  '(card, deck') <- Deck.deal_card (deck self) ;;
  Ok (card, put_current_hand (set_deck self deck') (Hand.add_card hand card)).

Definition stand (self : t) : t :=
  set_current_hand_index self (current_hand_index self + 1)%nat.

Definition double_down (self : t) : result (Card.t * t) :=
  hand <- get_current_hand self ;;
  if negb (Hand.can_double hand)
  then Raise (ValueError "Cannot double on this hand"%string)
  else
    let hand := Hand.set_bet hand (Hand.bet hand * 2)%Q in
    let hand := Hand.set_is_doubled hand true in
    '(card, deck') <- Deck.deal_card (deck self) ;;
    let hand := Hand.add_card hand card in
    let self := put_current_hand (set_deck self deck') hand in
    Ok (card, set_current_hand_index self (current_hand_index self + 1)%nat).

Definition split (self : t) : result ((Hand.t * Hand.t) * t) :=
  hand <- get_current_hand self ;;
  if negb (Hand.can_split hand)
  then Raise (ValueError "Cannot split this hand"%string)
  else if Z.of_nat (length (player_hands self))
          >=? GameRules.max_splits (rules self) + 1
  then Raise (ValueError "Maximum splits reached"%string)
  else
    (* [hand.cards.pop()] *)
    match rev (Hand.cards hand) with
    | [] => Raise IndexError
    | popped :: rest =>
        let new_hand := Hand.add_card Hand.init popped in
        let new_hand := Hand.set_bet new_hand (Hand.bet hand) in
        let new_hand := Hand.set_is_split new_hand true in
        let hand := Hand.set_is_split (Hand.set_cards hand (rev rest)) true in
        '(card1, deck1) <- Deck.deal_card (deck self) ;;
        let hand := Hand.add_card hand card1 in
        '(card2, deck2) <- Deck.deal_card deck1 ;;
        let new_hand := Hand.add_card new_hand card2 in
        let self := put_current_hand (set_deck self deck2) hand in
        let self :=
          set_player_hands self
            (list_insert (player_hands self) (current_hand_index self + 1)
               new_hand) in
        Ok ((hand, new_hand), self)
    end.

Definition surrender (self : t) : result t :=
  hand <- get_current_hand self ;;
  if negb (length (Hand.cards hand) =? 2)%nat
  then Raise (ValueError "Can only surrender on initial hand"%string)
  else
    let self := put_current_hand self (Hand.set_is_surrendered hand true) in
    Ok (set_current_hand_index self (current_hand_index self + 1)%nat).

Definition insure (self : t) : result t :=
  let dealer_shows_ace :=
    match Hand.cards (dealer_hand self) with
    | c0 :: _ => Rank_eqb (Card.rank c0) Ace
    | [] => false
    end in
  if negb (length (Hand.cards (dealer_hand self)) =? 2)%nat
     || negb dealer_shows_ace
  then Raise (ValueError "Insurance only available when dealer shows Ace"%string)
  else
    hand <- get_current_hand self ;;
    Ok (put_current_hand self (Hand.set_is_insured hand true)).

(** The [while True] loop of [play_dealer_hand], one iteration per unit
    of fuel; [None] is fuel exhaustion. *)
Fixpoint dealer_loop (fuel : nat) (hits_soft_17 : bool) (deck : Deck.t)
  (dealer : Hand.t) : option (result (Deck.t * Hand.t)) :=
  match fuel with
  | O => None
  | S fuel' =>
      let value := Hand.value dealer in
      if value >? 21 then Some (Ok (deck, dealer))
      else if value >? 17 then Some (Ok (deck, dealer))
      else if value =? 17 then
        if hits_soft_17 && Hand.is_soft dealer then
          match Deck.deal_card deck with
          | Raise e => Some (Raise e)
          | Ok (card, deck') =>
              dealer_loop fuel' hits_soft_17 deck' (Hand.add_card dealer card)
          end
        else Some (Ok (deck, dealer))
      else
        match Deck.deal_card deck with
        | Raise e => Some (Raise e)
        | Ok (card, deck') =>
            dealer_loop fuel' hits_soft_17 deck' (Hand.add_card dealer card)
        end
  end.

(** Every iteration that does not leave the loop takes a card from the
    shoe, so one more unit of fuel than cards in the shoe is enough. *)
Definition play_dealer_hand (self : t) : option (result t) :=
  match dealer_loop (S (Deck.cards_remaining (deck self)))
          (GameRules.dealer_hits_soft_17 (rules self)) (deck self)
          (dealer_hand self) with
  | None => None
  | Some (Raise e) => Some (Raise e)
  | Some (Ok (deck', dealer')) =>
      Some (Ok (set_dealer_hand (set_deck self deck') dealer'))
  end.

Definition resolve_hand (self : t) (hand : Hand.t) : Q :=
  if Hand.is_surrendered hand then (- Hand.bet hand * (1 # 2))%Q
  else
    let player_value := Hand.value hand in
    let dealer_value := Hand.value (dealer_hand self) in
    if player_value >? 21 then (- Hand.bet hand)%Q
    else if Hand.is_blackjack hand then
      if Hand.is_blackjack (dealer_hand self) then 0%Q
      else (Hand.bet hand * GameRules.blackjack_payout (rules self))%Q
    else if dealer_value >? 21 then Hand.bet hand
    else if Hand.is_blackjack (dealer_hand self) then
      if Hand.is_insured hand then
        let insurance_profit := (Hand.bet hand * (1 # 2))%Q in
        (- Hand.bet hand + insurance_profit)%Q
      else (- Hand.bet hand)%Q
    else if player_value >? dealer_value then Hand.bet hand
    else if player_value <? dealer_value then (- Hand.bet hand)%Q
    else 0%Q.

Definition is_round_complete (self : t) : bool :=
  (length (player_hands self) <=? current_hand_index self)%nat.

End BlackjackGame.

(** ** Basic strategy *)

Inductive Action : Type :=
| HIT | STAND | DOUBLE | SPLIT | SURRENDER
| DOUBLE_OR_HIT | DOUBLE_OR_STAND | SPLIT_IF_DAS.

Definition Action_eqb (a b : Action) : bool :=
  match a, b with
  | HIT, HIT | STAND, STAND | DOUBLE, DOUBLE | SPLIT, SPLIT
  | SURRENDER, SURRENDER | DOUBLE_OR_HIT, DOUBLE_OR_HIT
  | DOUBLE_OR_STAND, DOUBLE_OR_STAND | SPLIT_IF_DAS, SPLIT_IF_DAS => true
  | _, _ => false
  end.

Module BasicStrategy.

Record t : Type := mk {
  dealer_hits_soft_17 : bool;
  can_surrender : bool;
  double_after_split : bool
}.

(** The constructor's defaults. *)
Definition default : t := mk false true true.

(** A table row [{2: a2, 3: a3, ..., 11: a11}], given in key order. *)
Definition row (a2 a3 a4 a5 a6 a7 a8 a9 a10 a11 : Action) : list (Z * Action) :=
  [(2, a2); (3, a3); (4, a4); (5, a5); (6, a6);
   (7, a7); (8, a8); (9, a9); (10, a10); (11, a11)].

Definition all (a : Action) : list (Z * Action) := row a a a a a a a a a a.

Definition hard_strategy (self : t) : list (Z * list (Z * Action)) :=
  [ (5, all HIT); (6, all HIT); (7, all HIT); (8, all HIT);
    (9, row HIT DOUBLE_OR_HIT DOUBLE_OR_HIT DOUBLE_OR_HIT DOUBLE_OR_HIT
            HIT HIT HIT HIT HIT);
    (10, row DOUBLE_OR_HIT DOUBLE_OR_HIT DOUBLE_OR_HIT DOUBLE_OR_HIT
             DOUBLE_OR_HIT DOUBLE_OR_HIT DOUBLE_OR_HIT DOUBLE_OR_HIT HIT HIT);
    (11, row DOUBLE_OR_HIT DOUBLE_OR_HIT DOUBLE_OR_HIT DOUBLE_OR_HIT
             DOUBLE_OR_HIT DOUBLE_OR_HIT DOUBLE_OR_HIT DOUBLE_OR_HIT
             DOUBLE_OR_HIT
             (if dealer_hits_soft_17 self then DOUBLE_OR_HIT else HIT));
    (12, row HIT HIT STAND STAND STAND HIT HIT HIT HIT HIT);
    (13, row STAND STAND STAND STAND STAND HIT HIT HIT HIT HIT);
    (14, row STAND STAND STAND STAND STAND HIT HIT HIT HIT HIT);
    (15, row STAND STAND STAND STAND STAND HIT HIT HIT HIT HIT);
    (16, row STAND STAND STAND STAND STAND HIT HIT HIT HIT HIT);
    (17, all STAND); (18, all STAND); (19, all STAND); (20, all STAND);
    (21, all STAND) ].

Definition soft_strategy (self : t) : list (Z * list (Z * Action)) :=
  [ (13, row HIT HIT HIT DOUBLE_OR_HIT DOUBLE_OR_HIT HIT HIT HIT HIT HIT);
    (14, row HIT HIT HIT DOUBLE_OR_HIT DOUBLE_OR_HIT HIT HIT HIT HIT HIT);
    (15, row HIT HIT DOUBLE_OR_HIT DOUBLE_OR_HIT DOUBLE_OR_HIT
             HIT HIT HIT HIT HIT);
    (16, row HIT HIT DOUBLE_OR_HIT DOUBLE_OR_HIT DOUBLE_OR_HIT
             HIT HIT HIT HIT HIT);
    (17, row HIT DOUBLE_OR_HIT DOUBLE_OR_HIT DOUBLE_OR_HIT DOUBLE_OR_HIT
             HIT HIT HIT HIT HIT);
    (18, row (if negb (dealer_hits_soft_17 self) then STAND
              else DOUBLE_OR_STAND)
             DOUBLE_OR_STAND DOUBLE_OR_STAND DOUBLE_OR_STAND DOUBLE_OR_STAND
             STAND STAND HIT HIT
             (if negb (dealer_hits_soft_17 self) then HIT else HIT));
    (19, all STAND); (20, all STAND); (21, all STAND) ].

Definition pair_strategy (self : t) : list (Rank * list (Z * Action)) :=
  let das := if double_after_split self then SPLIT else HIT in
  [ (Two, row das das SPLIT SPLIT SPLIT SPLIT HIT HIT HIT HIT);
    (Three, row das das SPLIT SPLIT SPLIT SPLIT HIT HIT HIT HIT);
    (Four, row HIT HIT HIT das das HIT HIT HIT HIT HIT);
    (Five, row DOUBLE_OR_HIT DOUBLE_OR_HIT DOUBLE_OR_HIT DOUBLE_OR_HIT
               DOUBLE_OR_HIT DOUBLE_OR_HIT DOUBLE_OR_HIT DOUBLE_OR_HIT
               HIT HIT);
    (Six, row das SPLIT SPLIT SPLIT SPLIT HIT HIT HIT HIT HIT);
    (Seven, row SPLIT SPLIT SPLIT SPLIT SPLIT SPLIT HIT HIT HIT HIT);
    (Eight, all SPLIT);
    (Nine, row SPLIT SPLIT SPLIT SPLIT SPLIT STAND SPLIT SPLIT STAND STAND);
    (Ten, all STAND); (Jack, all STAND); (Queen, all STAND);
    (King, all STAND);
    (Ace, all SPLIT) ].

Definition surrender_strategy (self : t) : list (Z * list Z) :=
  [ (15, if can_surrender self then [10] else []);
    (16, if can_surrender self then [9; 10; 11] else []);
    (17, if can_surrender self && dealer_hits_soft_17 self then [11]
         else []) ].

(** [table.get(k1, {}).get(k2, default)]. *)
Definition lookup2 {K : Type} (eqb : K -> K -> bool)
  (table : list (K * list (Z * Action))) (k1 : K) (k2 : Z)
  (default : Action) : Action :=
  match dict_get eqb k1 table with
  | None => default
  | Some r =>
      match dict_get Z.eqb k2 r with
      | None => default
      | Some a => a
      end
  end.

(** The surrender test of [get_action]: both [in] checks. *)
Definition surrender_match (self : t) (player_value dealer_value : Z) : bool :=
  match dict_get Z.eqb player_value (surrender_strategy self) with
  | None => false
  | Some upcards => existsb (Z.eqb dealer_value) upcards
  end.

(** The pair test of [get_action]: the looked-up action is [SPLIT]. *)
Definition pair_split (self : t) (hand : Hand.t) (dealer_value : Z) : bool :=
  match Hand.cards hand with
  | c0 :: _ =>
      Action_eqb
        (lookup2 Rank_eqb (pair_strategy self) (Card.rank c0) dealer_value HIT)
        SPLIT
  | [] => false
  end.

Definition get_action (self : t) (hand : Hand.t) (dealer_upcard : Card.t)
  (can_double can_split can_surrender : bool) : Action :=
  let dealer_value := Card.value dealer_upcard in
  let player_value := Hand.value hand in
  if can_surrender && (length (Hand.cards hand) =? 2)%nat
     && negb (Hand.is_soft hand)
     && surrender_match self player_value dealer_value
  then SURRENDER
  else if can_split && Hand.is_pair hand
          && pair_split self hand dealer_value
  then SPLIT
  else
    let action :=
      if Hand.is_soft hand && (player_value <=? 21)
      then lookup2 Z.eqb (soft_strategy self) player_value dealer_value STAND
      else lookup2 Z.eqb (hard_strategy self) player_value dealer_value STAND in
    match action with
    | DOUBLE_OR_HIT => if can_double then DOUBLE else HIT
    | DOUBLE_OR_STAND => if can_double then DOUBLE else STAND
    | _ => action
    end.

Definition is_correct_action (self : t) (hand : Hand.t) (dealer_upcard : Card.t)
  (player_action : Action) (can_double can_split can_surrender : bool) : bool :=
  let correct_action :=
    get_action self hand dealer_upcard can_double can_split can_surrender in
  if Action_eqb player_action correct_action then true
  else if Action_eqb correct_action DOUBLE_OR_HIT
  then Action_eqb player_action DOUBLE || Action_eqb player_action HIT
  else if Action_eqb correct_action DOUBLE_OR_STAND
  then Action_eqb player_action DOUBLE || Action_eqb player_action STAND
  else false.

End BasicStrategy.

(** ** Hi-Lo counter *)

Module HiLoCounter.

Record t : Type := mk {
  running_count : Z;
  cards_seen : Z;
  starting_decks : Z
}.

Definition init : t := mk 0 0 6.

Definition count_card (self : t) (card : Card.t) : Z * t :=
  let value := Card.hi_lo_value card in
  (value, mk (running_count self + value) (cards_seen self + 1)
             (starting_decks self)).

(** Python's [/]: a zero divisor raises [ZeroDivisionError]. *)
Definition truediv (a b : Q) : result Q :=
  if Qeq_bool b 0 then Raise ZeroDivisionError else Ok (a / b)%Q.

Definition get_true_count (self : t) (decks_remaining : Q) : result Q :=
  if Qle_bool decks_remaining 0 then Ok 0%Q
  else truediv (inject_Z (running_count self)) decks_remaining.

Definition get_true_count_from_deck (self : t) (deck : Deck.t) : result Q :=
  get_true_count self (Deck.decks_remaining deck).

Definition reset (self : t) (num_decks : Z) : t := mk 0 0 num_decks.

(** [count_cards]: the loop body adds what [count_card] returns to [total]
    and keeps the counter [count_card] leaves. *)
Definition count_cards_step (acc : Z * t) (card : Card.t) : Z * t :=
  let '(total, self) := acc in
  let '(value, self') := count_card self card in
  (total + value, self').

Definition count_cards (self : t) (cards : list Card.t) : Z * t :=
  fold_left count_cards_step cards (0, self).

Definition get_running_count (self : t) : Z := running_count self.

Definition get_decks_remaining_from_cards (cards_remaining : Z) : Q :=
  inject_Z cards_remaining / 52.

Definition get_betting_index (true_count : Q) : string :=
  let tc := py_int true_count in
  if tc <=? 0 then "MIN_BET"%string
  else if tc =? 1 then "MIN_BET"%string
  else if tc =? 2 then "2_UNITS"%string
  else if tc =? 3 then "4_UNITS"%string
  else if tc =? 4 then "6_UNITS"%string
  else if tc >=? 5 then "8_UNITS"%string
  else "MIN_BET"%string.

Definition should_deviate_from_basic_strategy (true_count : Q)
  (player_total dealer_upcard : Z) (is_soft : bool) : option string :=
  let tc := py_int true_count in
  if (dealer_upcard =? 11) && (tc >=? 3) then Some "INSURE"%string
  else if (player_total =? 16) && (dealer_upcard =? 10) && negb is_soft
          && (tc >=? 0)
  then Some "STAND"%string
  else if (player_total =? 15) && (dealer_upcard =? 10) && negb is_soft
          && (tc >=? 4)
  then Some "STAND"%string
  else if (player_total =? 12) && (dealer_upcard =? 3) && (tc >=? 2)
  then Some "STAND"%string
  else if (player_total =? 12) && (dealer_upcard =? 2) && (tc >=? 3)
  then Some "STAND"%string
  else if (player_total =? 13) && (dealer_upcard =? 2) && (tc >=? -1)
  then Some "STAND"%string
  else if (player_total =? 20) && (dealer_upcard =? 5) && (tc >=? 5)
  then Some "SPLIT"%string
  else if (player_total =? 20) && (dealer_upcard =? 6) && (tc >=? 4)
  then Some "SPLIT"%string
  else None.

End HiLoCounter.

(** ** The player-turn loop of the simulator *)

Module FullGameSimulator.

(** What the player typed at the [Action (H/S/D/SP/SR)] prompt. *)
Inductive Input : Type :=
| IN_H | IN_S | IN_D | IN_SP | IN_SR | IN_other.

(** [try: ... except ValueError as e: print(...)]: the engine raises its
    [ValueError]s before it changes anything, so the game is as it was. *)
Definition except_ValueError (self : BlackjackGame.t)
  (r : result BlackjackGame.t) : result BlackjackGame.t :=
  match r with
  | Raise (ValueError _) => Ok self
  | _ => r
  end.

(** One pass through the body of
    [while not self.game.is_round_complete()] in [play_round], for the
    game state alone (printing and card counting left out). *)
Definition player_turn (game : BlackjackGame.t) (action_input : Input)
  : result BlackjackGame.t :=
  hand <- BlackjackGame.get_current_hand game ;;
  if Hand.is_bust hand then Ok (BlackjackGame.stand game)
  else
    match action_input with
    | IN_H =>
        '(card, game) <- BlackjackGame.hit game ;;
        hand <- BlackjackGame.get_current_hand game ;;
        if Hand.is_bust hand then Ok (BlackjackGame.stand game) else Ok game
    | IN_S => Ok (BlackjackGame.stand game)
    | IN_D =>
        except_ValueError game
          ('(card, game) <- BlackjackGame.double_down game ;; Ok game)
    | IN_SP =>
        except_ValueError game
          ('(hands, game) <- BlackjackGame.split game ;; Ok game)
    | IN_SR => except_ValueError game (BlackjackGame.surrender game)
    | IN_other => Ok game
    end.

End FullGameSimulator.

(** ** Counting drills: the score keeper *)

Module CountingTracker.

Record t : Type := mk {
  total_counts : Z;
  correct_counts : Z;
  count_errors : list Z;
  true_count_errors : list Q;
  time_per_count : list Q
}.

Definition init : t := mk 0 0 [] [] [].

Definition record_count_attempt (self : t) (actual_count guessed_count : Z)
  (time_taken : Q) : t :=
  let total_counts := total_counts self + 1 in
  let error := Z.abs (actual_count - guessed_count) in
  let correct_counts :=
    if error =? 0 then correct_counts self + 1 else correct_counts self in
  let count_errors :=
    if error =? 0 then count_errors self else count_errors self ++ [error] in
  let time_per_count :=
    if Qlt_le_dec 0 time_taken then time_per_count self ++ [time_taken]
    else time_per_count self in
  mk total_counts correct_counts count_errors (true_count_errors self)
     time_per_count.

Definition record_true_count_attempt (self : t)
  (actual_true_count guessed_true_count : Q) : t :=
  let error := Qabs (actual_true_count - guessed_true_count) in
  mk (total_counts self) (correct_counts self) (count_errors self)
     (true_count_errors self ++ [error]) (time_per_count self).

(** The division is Python's [/]; it is only reached with a non-zero
    divisor. *)
Definition get_accuracy (self : t) : result Q :=
  if total_counts self =? 0 then Ok 0%Q
  else
    q <- HiLoCounter.truediv (inject_Z (correct_counts self))
           (inject_Z (total_counts self)) ;;
    Ok (q * 100)%Q.

Definition get_average_error (self : t) : result Q :=
  if (length (count_errors self) =? 0)%nat then Ok 0%Q
  else
    HiLoCounter.truediv (inject_Z (fold_left Z.add (count_errors self) 0))
      (inject_Z (Z.of_nat (length (count_errors self)))).

Definition reset (self : t) : t := mk 0 0 [] [] [].

End CountingTracker.

(** ** Bet sizing *)

Module BettingStrategy.

Record t : Type := mk {
  bankroll : Q;
  risk_tolerance : Q;
  min_bet : Q;
  max_bet : Q
}.

Definition init (bankroll risk_tolerance : Q) : t :=
  mk bankroll risk_tolerance 10 500.

Definition simple_spread_bet (self : t) (true_count min_bet : Q) (spread : Z)
  : Q :=
  let tc := py_int true_count in
  let bet_units :=
    if tc <=? 0 then 1
    else if tc =? 1 then 1
    else if tc =? 2 then 2
    else if tc =? 3 then 4
    else if tc =? 4 then 6
    else if tc >=? 5 then Z.min 8 spread
    else 1 in
  let bet := (min_bet * inject_Z bet_units)%Q in
  py_max (BettingStrategy.min_bet self) (py_min bet (max_bet self)).

Definition wong_halves_exit (true_count : Q) : bool :=
  if Qlt_le_dec (-2) true_count then false else true.

Definition update_bankroll (self : t) (profit_loss : Q) : t :=
  mk (bankroll self + profit_loss)%Q (risk_tolerance self) (min_bet self)
     (max_bet self).

End BettingStrategy.

(** ** The strategy quiz *)

Module BasicStrategyTrainer.

(** [generate_random_hand]: a new six-deck shoe, two cards for the player
    and the dealer's upcard. *)
Definition generate_random_hand (rng : Deck.Shuffle)
  : result (Hand.t * Card.t) :=
  let deck := Deck.init rng 6 in
  let hand := Hand.init in
  '(c1, deck) <- Deck.deal_card deck ;;
  let hand := Hand.add_card hand c1 in
  '(c2, deck) <- Deck.deal_card deck ;;
  let hand := Hand.add_card hand c2 in
  '(dealer_upcard, deck) <- Deck.deal_card deck ;;
  Ok (hand, dealer_upcard).

End BasicStrategyTrainer.


(** ** Session records *)

Module HandResult.

Record t : Type := mk {
  timestamp : Q;
  bet_amount : Q;
  profit_loss : Q;
  player_total : Z;
  dealer_total : Z;
  true_count : Q;
  running_count : Z;
  action_taken : string;
  was_correct_bs : bool;
  was_blackjack : bool;
  was_bust : bool;
  was_surrendered : bool
}.

End HandResult.

Module SessionTracker.

Record t : Type := mk {
  starting_bankroll : Q;
  current_bankroll : Q;
  session_id : string;
  start_time : Q;
  end_time : option Q;
  hands_results : list HandResult.t;
  total_hands : Z;
  hands_won : Z;
  hands_lost : Z;
  hands_pushed : Z;
  blackjacks : Z;
  busts : Z;
  surrenders : Z;
  total_wagered : Q;
  basic_strategy_correct : Z;
  basic_strategy_total : Z;
  bets : list Q;
  true_counts : list Q
}.

(** [__init__]; [now] is the reading of [time.time()] and [session_id] the
    string formatted from it. *)
Definition init (starting_bankroll now : Q) (session_id : string) : t :=
  mk starting_bankroll starting_bankroll session_id now None
     [] 0 0 0 0 0 0 0 0 0 0 [] [].

(** [record_hand]; [now] is the reading of [time.time()]. *)
Definition record_hand (self : t) (now : Q) (bet_amount profit_loss : Q)
  (player_total dealer_total : Z) (true_count : Q) (running_count : Z)
  (action_taken : string)
  (was_correct_bs was_blackjack was_bust was_surrendered : bool) : t :=
  let hand_result :=
    HandResult.mk now bet_amount profit_loss player_total dealer_total
      true_count running_count action_taken was_correct_bs was_blackjack
      was_bust was_surrendered in
  let won := if Qlt_le_dec 0 profit_loss then true else false in
  let lost := if Qlt_le_dec profit_loss 0 then true else false in
  mk (starting_bankroll self)
     (current_bankroll self + profit_loss)%Q
     (session_id self) (start_time self) (end_time self)
     (hands_results self ++ [hand_result])
     (total_hands self + 1)
     (if won then hands_won self + 1 else hands_won self)
     (if won then hands_lost self
      else if lost then hands_lost self + 1 else hands_lost self)
     (if won then hands_pushed self
      else if lost then hands_pushed self else hands_pushed self + 1)
     (if was_blackjack then blackjacks self + 1 else blackjacks self)
     (if was_bust then busts self + 1 else busts self)
     (if was_surrendered then surrenders self + 1 else surrenders self)
     (total_wagered self + bet_amount)%Q
     (if was_correct_bs then basic_strategy_correct self + 1
      else basic_strategy_correct self)
     (basic_strategy_total self + 1)
     (bets self ++ [bet_amount])
     (true_counts self ++ [true_count]).

Definition get_win_rate (self : t) : result Q :=
  if total_hands self =? 0 then Ok 0%Q
  else
    q <- HiLoCounter.truediv (inject_Z (hands_won self))
           (inject_Z (total_hands self)) ;;
    Ok (q * 100)%Q.

Definition get_net_profit_loss (self : t) : Q :=
  (current_bankroll self - starting_bankroll self)%Q.

Definition get_basic_strategy_accuracy (self : t) : result Q :=
  if basic_strategy_total self =? 0 then Ok 100%Q
  else
    q <- HiLoCounter.truediv (inject_Z (basic_strategy_correct self))
           (inject_Z (basic_strategy_total self)) ;;
    Ok (q * 100)%Q.

End SessionTracker.


(** * Specification vocabulary *)

(** A card [c] may be counted at [v]: an Ace at 1 or at 11, every other card
    at its fixed blackjack value. *)
Definition counts_as (c : Card.t) (v : Z) : Prop :=
  if Rank_eqb (Card.rank c) Ace then v = 1 \/ v = 11 else v = Card.value c.

Definition sum_values (vs : list Z) : Z := fold_right Z.add 0 vs.

(** [t] is a total of the cards [cs] under some choice for each Ace. *)
Definition achievable (cs : list Card.t) (t : Z) : Prop :=
  exists vs, Forall2 counts_as cs vs /\ t = sum_values vs.

(** [v] is the best total of [cs]: the largest achievable total not above 21
    when there is one, the smallest achievable total otherwise. *)
Definition best_total (cs : list Card.t) (v : Z) : Prop :=
  achievable cs v /\
  ((exists t, achievable cs t /\ t <= 21) ->
   v <= 21 /\ forall t, achievable cs t -> t <= 21 -> t <= v) /\
  ((forall t, achievable cs t -> 21 < t) ->
   forall t, achievable cs t -> v <= t).

(** The assignment [vs] counts some Ace of [cs] as 11. *)
Definition counts_an_ace_as_11 (cs : list Card.t) (vs : list Z) : Prop :=
  exists i c, nth_error cs i = Some c /\ Card.rank c = Ace /\
              nth_error vs i = Some 11.

(** A soft hand: its total [Hand.value], not above 21, is reached with an Ace
    counted as 11. *)
Definition soft_hand (h : Hand.t) : Prop :=
  Hand.value h <= 21 /\
  exists vs, Forall2 counts_as (Hand.cards h) vs /\
             sum_values vs = Hand.value h /\
             counts_an_ace_as_11 (Hand.cards h) vs.

(** The number of Aces, and the total with every Ace at 1. *)
Fixpoint aces_in (cs : list Card.t) : nat :=
  match cs with
  | [] => O
  | c :: cs' =>
      if Rank_eqb (Card.rank c) Ace then S (aces_in cs') else aces_in cs'
  end.

(** The value of one card with an Ace at 1. *)
Definition hard_value (c : Card.t) : Z :=
  if Rank_eqb (Card.rank c) Ace then 1 else Card.value c.

Fixpoint hard_total (cs : list Card.t) : Z :=
  match cs with
  | [] => 0
  | c :: cs' => hard_value c + hard_total cs'
  end.

(** A hand built by [add_card] calls on a new [Hand]. *)
Definition hand_of (cs : list Card.t) : Hand.t :=
  fold_left Hand.add_card cs Hand.init.

Definition card (r : Rank) : Card.t := Card.mk r SPADES.

(** A shuffle that leaves the shoe in the order it was built. *)
Definition no_shuffle : Deck.Shuffle :=
  Deck.mkShuffle (fun l => l) (fun l => Permutation_refl l).

(** The shoes met between two resets: the one [reset] leaves, and the one a
    successful [deal_card] leaves from such a shoe. *)
Inductive since_reset (rng : Deck.Shuffle) : Deck.t -> Prop :=
| after_reset (d : Deck.t) : since_reset rng (Deck.reset rng d)
| after_deal (d : Deck.t) (c : Card.t) (d' : Deck.t) :
    since_reset rng d -> Deck.deal_card d = Ok (c, d') -> since_reset rng d'.

(** [deal_card] called [n] times, stopping at the first failure. *)
Fixpoint deal_cards (n : nat) (d : Deck.t) : result (list Card.t * Deck.t) :=
  match n with
  | O => Ok ([], d)
  | S n' =>
      '(c, d1) <- Deck.deal_card d ;;
      '(cs, d2) <- deal_cards n' d1 ;;
      Ok (c :: cs, d2)
  end.

(** The cut-card index the specification asks for:
    [floor(total_cards * (1 - penetration))]. *)
Definition cut_card_spec (num_decks : nat) (penetration : Q) : Z :=
  Qfloor (inject_Z (52 * Z.of_nat num_decks) * (1 - penetration)).

Definition rules_with_penetration (p : Q) : GameRules.t :=
  GameRules.mk 6 false (3 # 2) true true false 3 10%Q 500%Q p.

(** The dealer may stop on [dealer]: bust, above 17, or at exactly 17 unless
    soft 17s are hit and [is_soft()] holds. *)
Definition dealer_done (hits_soft_17 : bool) (dealer : Hand.t) : Prop :=
  21 < Hand.value dealer \/
  17 < Hand.value dealer \/
  (Hand.value dealer = 17 /\
   (hits_soft_17 = true -> Hand.is_soft dealer = false)).

(** The dealer upcards against which the surrender table gives up a 16. *)
Definition surrender_16_upcards : list Z := [9; 10; 11].

(** The default rules with the dealer hitting soft 17. *)
Definition rules_h17 : GameRules.t :=
  GameRules.mk 6 true (3 # 2) true true false 3 10%Q 500%Q (3 # 4).

(** A game in the middle of a round: the live shoe [shoe] (its last card is
    dealt next), the player's hands, the dealer's hand and the cursor. *)
Definition game_at (rules : GameRules.t) (shoe : list Card.t)
  (hands : list Hand.t) (dealer : Hand.t) (cursor : nat) : BlackjackGame.t :=
  BlackjackGame.mk rules (Deck.mk (GameRules.num_decks rules) shoe [] 0)
    hands dealer cursor.

(** A hand of the given cards carrying the bet [b]. *)
Definition hand_with_bet (cs : list Card.t) (b : Q) : Hand.t :=
  Hand.set_bet (hand_of cs) b.

(** A round at settlement: one player hand against a dealer hand. *)
Definition showdown (player dealer : Hand.t) : BlackjackGame.t :=
  game_at GameRules.default [] [player] dealer 1.

(** A ten-valued card: 10, J, Q or K. *)
Definition ten_valued (c : Card.t) : Prop := Card.value c = 10.

(** Every hand of the list came out of a split. *)
Definition all_split (hands : list Hand.t) : Prop :=
  Forall (fun h => Hand.is_split h = true) hands.

(** The hands of a round: the one dealt, or two split hands. *)
Definition round_shape (g : BlackjackGame.t) : Prop :=
  length (BlackjackGame.player_hands g) = 1%nat \/
  (length (BlackjackGame.player_hands g) = 2%nat /\
   all_split (BlackjackGame.player_hands g)).

(** The player-turn loop run on the inputs typed one after the other. *)
Fixpoint player_turns (inputs : list FullGameSimulator.Input)
  (g : BlackjackGame.t) : result BlackjackGame.t :=
  match inputs with
  | [] => Ok g
  | input :: inputs' =>
      g1 <- FullGameSimulator.player_turn g input ;;
      player_turns inputs' g1
  end.

Definition Card_eq_dec (a b : Card.t) : {a = b} + {a <> b}.
Proof. decide equality; decide equality. Defined.

(** All the cards of the table: live shoe, player hands, dealer hand. *)
Definition hands_cards (hands : list Hand.t) : list Card.t :=
  flat_map Hand.cards hands.

Definition cards_in_play (g : BlackjackGame.t) : list Card.t :=
  Deck.cards (BlackjackGame.deck g)
  ++ hands_cards (BlackjackGame.player_hands g)
  ++ Hand.cards (BlackjackGame.dealer_hand g).

(** What one pass of the player-turn loop leaves, when it does not raise:
    the dealer's hand as it was, and either nothing but the cursor moved,
    or the current hand was flagged, or it took the next card of the shoe,
    or, unsplit so far, it was split in two. *)
Definition turn_outcome (g g' : BlackjackGame.t) : Prop :=
  BlackjackGame.dealer_hand g' = BlackjackGame.dealer_hand g /\
  exists hand,
    nth_error (BlackjackGame.player_hands g)
      (BlackjackGame.current_hand_index g) = Some hand /\
    ((BlackjackGame.player_hands g' = BlackjackGame.player_hands g /\
      BlackjackGame.deck g' = BlackjackGame.deck g)
     \/ (exists hand',
           BlackjackGame.player_hands g'
           = list_set (BlackjackGame.player_hands g)
               (BlackjackGame.current_hand_index g) hand' /\
           Hand.is_split hand' = Hand.is_split hand /\
           Hand.cards hand' = Hand.cards hand /\
           BlackjackGame.deck g' = BlackjackGame.deck g)
     \/ (exists hand' c,
           BlackjackGame.player_hands g'
           = list_set (BlackjackGame.player_hands g)
               (BlackjackGame.current_hand_index g) hand' /\
           Hand.is_split hand' = Hand.is_split hand /\
           Hand.cards hand' = Hand.cards hand ++ [c] /\
           Deck.deal_card (BlackjackGame.deck g)
           = Ok (c, BlackjackGame.deck g'))
     \/ (exists first second c1 c2 deck1 h1 h2,
           Hand.is_split hand = false /\
           Hand.cards hand = [first; second] /\
           Deck.deal_card (BlackjackGame.deck g) = Ok (c1, deck1) /\
           Deck.deal_card deck1 = Ok (c2, BlackjackGame.deck g') /\
           Hand.cards h1 = [first; c1] /\ Hand.cards h2 = [second; c2] /\
           Hand.is_split h1 = true /\ Hand.is_split h2 = true /\
           BlackjackGame.player_hands g'
           = firstn (BlackjackGame.current_hand_index g)
               (BlackjackGame.player_hands g)
             ++ h1 :: h2
                :: skipn (S (BlackjackGame.current_hand_index g))
                     (BlackjackGame.player_hands g))).

(** The five actions a player can take. *)
Definition basic_action (a : Action) : Prop :=
  a = HIT \/ a = STAND \/ a = DOUBLE \/ a = SPLIT \/ a = SURRENDER.

(** The entries of the hard and soft tables: plain or double-or actions. *)
Definition table_entry (a : Action) : bool :=
  match a with
  | HIT | STAND | DOUBLE_OR_HIT | DOUBLE_OR_STAND => true
  | _ => false
  end.

(** All the actions stored in a two-level table. *)
Definition table_actions {K : Type} (table : list (K * list (Z * Action)))
  : list Action :=
  flat_map (fun kr => map snd (snd kr)) table.

(** A two-card hand of one rank. *)
Definition pair_of (r : Rank) (s1 s2 : Suit) : Hand.t :=
  hand_of [Card.mk r s1; Card.mk r s2].

(** The Hi-Lo values of a list of cards added up. *)
Definition hi_lo_sum (cs : list Card.t) : Z :=
  fold_right (fun c acc => Card.hi_lo_value c + acc) 0 cs.

(** The states of a score keeper: a new or reset one, and what recording an
    attempt leaves. *)
Inductive keeping_score : CountingTracker.t -> Prop :=
| score_init : keeping_score CountingTracker.init
| score_reset (s : CountingTracker.t) :
    keeping_score s -> keeping_score (CountingTracker.reset s)
| score_count (s : CountingTracker.t) (actual guessed : Z) (time_taken : Q) :
    keeping_score s ->
    keeping_score
      (CountingTracker.record_count_attempt s actual guessed time_taken)
| score_true_count (s : CountingTracker.t) (actual guessed : Q) :
    keeping_score s ->
    keeping_score (CountingTracker.record_true_count_attempt s actual guessed).

(** The states of a session: a new tracker, and what recording a hand
    leaves. *)
Inductive recording : SessionTracker.t -> Prop :=
| recording_init (bankroll now : Q) (id : string) :
    recording (SessionTracker.init bankroll now id)
| recording_hand (s : SessionTracker.t) (now bet profit : Q)
    (player_total dealer_total : Z) (true_count : Q) (running_count : Z)
    (action : string) (correct blackjack bust surrendered : bool) :
    recording s ->
    recording
      (SessionTracker.record_hand s now bet profit player_total dealer_total
         true_count running_count action correct blackjack bust surrendered).

(** * Hand values *)

Lemma count_cards_from (cs : list Card.t) :
  forall total aces,
    fold_left Hand.count_card cs (total, aces)
    = (total + hard_total cs + 10 * Z.of_nat (aces_in cs), (aces + aces_in cs)%nat).
Proof.
  induction cs as [|c cs IH]; intros total aces;
    cbn [fold_left aces_in hard_total]; unfold hard_value.
  - f_equal; lia.
  - unfold Hand.count_card at 2.
    destruct (Rank_eqb (Card.rank c) Ace); rewrite IH; f_equal; lia.
Qed.

Lemma count_cards_eq (cs : list Card.t) :
  Hand.count_cards cs = (hard_total cs + 10 * Z.of_nat (aces_in cs), aces_in cs).
Proof.
  unfold Hand.count_cards. rewrite count_cards_from. f_equal.
Qed.

(** The ace-adjusting loop takes [j] tens off, stops at the first total not
    above 21, and only reduced totals that were above 21. *)
Lemma adjust_for_aces_spec (aces : nat) :
  forall total, exists j : nat,
    (j <= aces)%nat /\
    Hand.adjust_for_aces aces total = total - 10 * Z.of_nat j /\
    (Hand.adjust_for_aces aces total <= 21 \/ j = aces) /\
    ((0 < j)%nat -> 21 < total - 10 * (Z.of_nat j - 1)).
Proof.
  induction aces as [|n IH]; intros total; cbn [Hand.adjust_for_aces].
  - exists O. repeat split; lia.
  - destruct (total >? 21) eqn:E.
    + destruct (IH (total - 10)) as (j & Hj & Heq & Hstop & Hprev).
      exists (S j). split; [lia|]. split; [lia|]. split.
      * destruct Hstop; [left; lia | right; lia].
      * intros _. destruct j as [|j']; [ lia | ].
        assert (0 < S j')%nat as Hpos by lia. specialize (Hprev Hpos). lia.
    + exists O. split; [lia|]. split; [lia|]. split; [left|]; lia.
Qed.

Lemma value_eq (h : Hand.t) :
  Hand.value h
  = Hand.adjust_for_aces (aces_in (Hand.cards h))
      (hard_total (Hand.cards h) + 10 * Z.of_nat (aces_in (Hand.cards h))).
Proof.
  unfold Hand.value. now rewrite count_cards_eq.
Qed.

Lemma is_soft_eq (h : Hand.t) :
  Hand.is_soft h
  = (0 <? aces_in (Hand.cards h))%nat
    && (hard_total (Hand.cards h) + 10 * Z.of_nat (aces_in (Hand.cards h)) <=? 21).
Proof.
  unfold Hand.is_soft. rewrite count_cards_eq.
  now destruct (_ && _).
Qed.

(** The achievable totals are the hard total plus ten for each Ace at 11. *)
Lemma achievable_iff (cs : list Card.t) (t : Z) :
  achievable cs t <->
  exists k : nat, (k <= aces_in cs)%nat /\ t = hard_total cs + 10 * Z.of_nat k.
Proof.
  split.
  - intros (vs & HF & ->).
    induction HF as [|c v cs vs Hc HF IH];
      cbn [sum_values fold_right hard_total aces_in]; unfold hard_value.
    + exists O. split; lia.
    + destruct IH as (k & Hk & Hsum). fold (sum_values vs). rewrite Hsum.
      unfold counts_as in Hc.
      destruct (Rank_eqb (Card.rank c) Ace).
      * destruct Hc as [-> | ->].
        -- exists k. split; lia.
        -- exists (S k). split; lia.
      * exists k. split; lia.
  - revert t.
    induction cs as [|c cs IH]; intros t (k & Hk & ->);
      cbn [hard_total aces_in] in *; unfold hard_value in *.
    + exists []. split; [constructor | cbn [sum_values fold_right]; lia].
    + destruct (Rank_eqb (Card.rank c) Ace) eqn:E.
      * destruct k as [|k'].
        -- destruct (IH (hard_total cs + 10 * Z.of_nat 0)) as (vs & HF & Hs).
           { exists O. split; lia. }
           exists (1 :: vs). split.
           ++ constructor; [unfold counts_as; rewrite E; now left | exact HF].
           ++ cbn [sum_values fold_right]. fold (sum_values vs). lia.
        -- destruct (IH (hard_total cs + 10 * Z.of_nat k')) as (vs & HF & Hs).
           { exists k'. split; lia. }
           exists (11 :: vs). split.
           ++ constructor; [unfold counts_as; rewrite E; now right | exact HF].
           ++ cbn [sum_values fold_right]. fold (sum_values vs). lia.
      * destruct (IH (hard_total cs + 10 * Z.of_nat k)) as (vs & HF & Hs).
        { exists k. split; lia. }
        exists (Card.value c :: vs). split.
        -- constructor; [unfold counts_as; now rewrite E | exact HF].
        -- cbn [sum_values fold_right]. fold (sum_values vs). lia.
Qed.

(** C1. For every hand, [value()] is the largest total not above 21 that can
    be reached by counting each Ace as 1 or 11 (other cards at their fixed
    value), and the smallest reachable total when every one is above 21. *)
Theorem value_is_best_total (h : Hand.t) :
  best_total (Hand.cards h) (Hand.value h).
Proof.
  unfold best_total. rewrite value_eq.
  set (cs := Hand.cards h). set (H := hard_total cs). set (a := aces_in cs).
  destruct (adjust_for_aces_spec a (H + 10 * Z.of_nat a))
    as (j & Hj & Heq & Hstop & Hprev).
  split; [| split].
  - apply achievable_iff. exists (a - j)%nat. fold H a. split; lia.
  - intros (t0 & Ht0 & Hle0). apply achievable_iff in Ht0.
    destruct Ht0 as (k0 & Hk0 & ->). fold H a in Hk0 |- *.
    split.
    + destruct Hstop; lia.
    + intros t Ht Hle. apply achievable_iff in Ht.
      destruct Ht as (k & Hk & ->). fold H a in Hk, Hle |- *.
      destruct j as [|j']; [lia|].
      assert (0 < S j')%nat as Hpos by lia. specialize (Hprev Hpos). lia.
  - intros Hall t Ht. apply achievable_iff in Ht.
    destruct Ht as (k & Hk & ->). fold H a in Hk |- *.
    destruct Hstop as [Hle | ->]; [| lia].
    exfalso.
    assert (achievable cs (Hand.adjust_for_aces a (H + 10 * Z.of_nat a))) as Hach.
    { apply achievable_iff. exists (a - j)%nat. fold H a. split; lia. }
    apply Hall in Hach. lia.
Qed.

(** * Soft hands *)

Lemma Rank_eqb_eq (a b : Rank) : Rank_eqb a b = true <-> a = b.
Proof.
  split; [| intros ->; now destruct b].
  destruct a, b; simpl; intros E; try reflexivity; discriminate E.
Qed.

Lemma adjust_for_aces_no_bust (aces : nat) (total : Z) :
  total <= 21 -> Hand.adjust_for_aces aces total = total.
Proof.
  intros Hle. destruct aces as [|n]; cbn [Hand.adjust_for_aces]; [reflexivity|].
  destruct (Z.gtb_spec total 21); [lia | reflexivity].
Qed.

Lemma counts_as_value (cs : list Card.t) :
  Forall2 counts_as cs (map Card.value cs).
Proof.
  induction cs as [|c cs IH]; cbn [map]; constructor; [| exact IH].
  unfold counts_as. destruct (Rank_eqb (Card.rank c) Ace) eqn:E; [| reflexivity].
  apply Rank_eqb_eq in E. unfold Card.value. rewrite E. now right.
Qed.

Lemma sum_values_all_eleven (cs : list Card.t) :
  sum_values (map Card.value cs) = hard_total cs + 10 * Z.of_nat (aces_in cs).
Proof.
  induction cs as [|c cs IH];
    cbn [map sum_values fold_right hard_total aces_in]; unfold hard_value.
  - lia.
  - fold (sum_values (map Card.value cs)). rewrite IH.
    destruct (Rank_eqb (Card.rank c) Ace) eqn:E; [| lia].
    apply Rank_eqb_eq in E. unfold Card.value. rewrite E. lia.
Qed.

Lemma some_ace (cs : list Card.t) :
  (0 < aces_in cs)%nat ->
  exists i c, nth_error cs i = Some c /\ Card.rank c = Ace.
Proof.
  induction cs as [|c cs IH]; cbn [aces_in]; [lia|].
  destruct (Rank_eqb (Card.rank c) Ace) eqn:E.
  - intros _. exists O, c. split; [reflexivity | now apply Rank_eqb_eq].
  - intros Hpos. destruct (IH Hpos) as (i & c' & Hn & Hr).
    exists (S i), c'. split; assumption.
Qed.

(** Whenever [is_soft()] answers true the hand is soft: no Ace had to be
    taken down to 1, and there is one. *)
Lemma is_soft_sound (h : Hand.t) : Hand.is_soft h = true -> soft_hand h.
Proof.
  rewrite is_soft_eq. intros E. apply andb_prop in E. destruct E as [Ha Ht].
  apply Nat.ltb_lt in Ha. apply Z.leb_le in Ht.
  assert (Hand.value h
          = hard_total (Hand.cards h) + 10 * Z.of_nat (aces_in (Hand.cards h)))
    as Hv by (rewrite value_eq; now apply adjust_for_aces_no_bust).
  split; [lia|].
  exists (map Card.value (Hand.cards h)). split; [apply counts_as_value|].
  split; [now rewrite sum_values_all_eleven|].
  destruct (some_ace _ Ha) as (i & c & Hn & Hr).
  exists i, c. split; [exact Hn|]. split; [exact Hr|].
  rewrite nth_error_map, Hn. cbn [option_map]. unfold Card.value. now rewrite Hr.
Qed.

(** C2. The hand {A, A, 9} has value 21 with one Ace counted as 11, so it is
    soft, yet [is_soft()] answers false: it tests the total with every Ace
    at 11 (here 31) instead of the total [value()] settles on. *)
Theorem is_soft_false_on_ace_ace_nine :
  let h := hand_of [card Ace; card Ace; card Nine] in
  Hand.value h = 21 /\ soft_hand h /\ Hand.is_soft h = false.
Proof.
  cbv zeta. split; [reflexivity|]. split; [| reflexivity].
  split; [vm_compute; discriminate|].
  exists [11; 1; 9]. split.
  - constructor; [now right|]. constructor; [now left|].
    constructor; [reflexivity | constructor].
  - split; [reflexivity|].
    exists O, (card Ace). repeat split.
Qed.

(** * Settling a hand *)

(** C3. [resolve_hand] settles a hand by the first rule that applies:
    surrendered, player bust, player blackjack (push against a dealer
    blackjack), dealer bust, dealer blackjack (half the loss back when
    insured), then the comparison of the two totals. *)
Theorem resolve_hand_precedence (g : BlackjackGame.t) (hand : Hand.t) :
  let r := BlackjackGame.resolve_hand g hand in
  let bet := Hand.bet hand in
  let payout := GameRules.blackjack_payout (BlackjackGame.rules g) in
  let dealer := BlackjackGame.dealer_hand g in
  let pv := Hand.value hand in
  let dv := Hand.value dealer in
  (Hand.is_surrendered hand = true -> (r == - (1 # 2) * bet)%Q) /\
  (Hand.is_surrendered hand = false -> 21 < pv -> (r == - bet)%Q) /\
  (Hand.is_surrendered hand = false -> pv <= 21 ->
   Hand.is_blackjack hand = true -> Hand.is_blackjack dealer = true ->
   (r == 0)%Q) /\
  (Hand.is_surrendered hand = false -> pv <= 21 ->
   Hand.is_blackjack hand = true -> Hand.is_blackjack dealer = false ->
   (r == bet * payout)%Q) /\
  (Hand.is_surrendered hand = false -> pv <= 21 ->
   Hand.is_blackjack hand = false -> 21 < dv -> (r == bet)%Q) /\
  (Hand.is_surrendered hand = false -> pv <= 21 ->
   Hand.is_blackjack hand = false -> dv <= 21 ->
   Hand.is_blackjack dealer = true -> Hand.is_insured hand = true ->
   (r == - (1 # 2) * bet)%Q) /\
  (Hand.is_surrendered hand = false -> pv <= 21 ->
   Hand.is_blackjack hand = false -> dv <= 21 ->
   Hand.is_blackjack dealer = true -> Hand.is_insured hand = false ->
   (r == - bet)%Q) /\
  (Hand.is_surrendered hand = false -> pv <= 21 ->
   Hand.is_blackjack hand = false -> dv <= 21 ->
   Hand.is_blackjack dealer = false -> dv < pv -> (r == bet)%Q) /\
  (Hand.is_surrendered hand = false -> pv <= 21 ->
   Hand.is_blackjack hand = false -> dv <= 21 ->
   Hand.is_blackjack dealer = false -> pv < dv -> (r == - bet)%Q) /\
  (Hand.is_surrendered hand = false -> pv <= 21 ->
   Hand.is_blackjack hand = false -> dv <= 21 ->
   Hand.is_blackjack dealer = false -> pv = dv -> (r == 0)%Q).
Proof.
  cbv zeta. unfold BlackjackGame.resolve_hand.
  destruct (Hand.is_surrendered hand);
    destruct (Z.gtb_spec (Hand.value hand) 21);
    destruct (Hand.is_blackjack hand);
    destruct (Hand.is_blackjack (BlackjackGame.dealer_hand g));
    destruct (Z.gtb_spec (Hand.value (BlackjackGame.dealer_hand g)) 21);
    destruct (Hand.is_insured hand);
    destruct (Z.gtb_spec (Hand.value hand)
                (Hand.value (BlackjackGame.dealer_hand g)));
    destruct (Z.ltb_spec (Hand.value hand)
                (Hand.value (BlackjackGame.dealer_hand g)));
    repeat split; intros; try discriminate; try lia; try reflexivity; ring.
Qed.

(** C10. A split-derived hand of exactly two cards totalling 21 counts as a
    blackjack: [is_blackjack()] is true, [resolve_hand] does not look at the
    split flag, and an unsurrendered such hand is paid [bet * payout]
    against a dealer without blackjack and pushes against a dealer
    blackjack. *)
Theorem split_hand_21_paid_as_blackjack (g : BlackjackGame.t) (hand : Hand.t) :
  Hand.is_split hand = true ->
  length (Hand.cards hand) = 2%nat ->
  Hand.value hand = 21 ->
  Hand.is_blackjack hand = true /\
  BlackjackGame.resolve_hand g hand
  = BlackjackGame.resolve_hand g (Hand.set_is_split hand false) /\
  (Hand.is_surrendered hand = false ->
   (Hand.is_blackjack (BlackjackGame.dealer_hand g) = false ->
    (BlackjackGame.resolve_hand g hand
     == Hand.bet hand * GameRules.blackjack_payout (BlackjackGame.rules g))%Q) /\
   (Hand.is_blackjack (BlackjackGame.dealer_hand g) = true ->
    (BlackjackGame.resolve_hand g hand == 0)%Q)).
Proof.
  intros Hsplit Hlen Hval.
  assert (Hand.is_blackjack hand = true) as Hbj.
  { unfold Hand.is_blackjack. rewrite Hlen, Hval. reflexivity. }
  split; [exact Hbj|]. split; [reflexivity|].
  intros Hsur. unfold BlackjackGame.resolve_hand.
  rewrite Hsur, Hbj, Hval. cbn [Z.gtb Z.compare Pos.compare Pos.compare_cont].
  split; intros ->; reflexivity.
Qed.

(** * True count *)

(** C9. [get_true_count] never faults: it returns [running_count / d] for a
    positive [d] and 0 otherwise. *)
Theorem get_true_count_total (c : HiLoCounter.t) (d : Q) :
  (exists q, HiLoCounter.get_true_count c d = Ok q) /\
  ((0 < d)%Q ->
   HiLoCounter.get_true_count c d
   = Ok (inject_Z (HiLoCounter.running_count c) / d)%Q) /\
  ((d <= 0)%Q -> HiLoCounter.get_true_count c d = Ok 0%Q).
Proof.
  unfold HiLoCounter.get_true_count, HiLoCounter.truediv.
  destruct (Qle_bool d 0) eqn:Ele.
  - apply Qle_bool_iff in Ele. split; [now exists 0%Q|].
    split; [| reflexivity].
    intros Hpos. exfalso. exact (Qlt_not_le _ _ Hpos Ele).
  - assert (~ (d <= 0)%Q) as Hnle.
    { intros Hle. apply Qle_bool_iff in Hle. congruence. }
    destruct (Qeq_bool d 0) eqn:Eeq.
    + exfalso. apply Hnle. apply Qeq_bool_iff in Eeq. rewrite Eeq.
      apply Qle_refl.
    + split; [eexists; reflexivity|]. split; [reflexivity|].
      intros Hle. contradiction.
Qed.

(** * The shoe *)

Lemma length_one_deck : length Deck.one_deck = 52%nat.
Proof. reflexivity. Qed.

Lemma length_fresh_cards (n : nat) : length (Deck.fresh_cards n) = (52 * n)%nat.
Proof.
  induction n as [|n IH]; cbn [Deck.fresh_cards]; [reflexivity|].
  rewrite length_app, IH, length_one_deck. lia.
Qed.

Lemma length_shuffle (rng : Deck.Shuffle) (l : list Card.t) :
  length (Deck.shuffle rng l) = length l.
Proof. symmetry. apply Permutation_length, Deck.shuffle_perm. Qed.

Lemma reset_cards_remaining (rng : Deck.Shuffle) (d : Deck.t) :
  Deck.cards_remaining (Deck.reset rng d) = (52 * Deck.num_decks d)%nat.
Proof.
  unfold Deck.cards_remaining, Deck.reset. cbn [Deck.cards].
  now rewrite length_shuffle, length_fresh_cards.
Qed.

(** What a successful [deal_card] does: the dealt card was the last of the
    live sequence and is now the last of the discards. *)
Lemma deal_card_ok (d : Deck.t) (c : Card.t) (d' : Deck.t) :
  Deck.deal_card d = Ok (c, d') ->
  Deck.cards d = Deck.cards d' ++ [c] /\
  Deck.discards d' = Deck.discards d ++ [c] /\
  Deck.num_decks d' = Deck.num_decks d /\
  Deck.cut_card_position d' = Deck.cut_card_position d.
Proof.
  unfold Deck.deal_card.
  destruct (length (Deck.cards d) =? 0)%nat; [discriminate|].
  destruct (rev (Deck.cards d)) as [|x rest] eqn:E; [discriminate|].
  intros H. injection H as <- <-. cbn.
  repeat split.
  rewrite <- (rev_involutive (Deck.cards d)), E. reflexivity.
Qed.

Lemma deal_card_empty (d : Deck.t) :
  Deck.cards d = [] -> Deck.deal_card d = Raise (Exception "Deck is empty!").
Proof. unfold Deck.deal_card. now intros ->. Qed.

Lemma deal_card_nonempty (d : Deck.t) :
  Deck.cards d <> [] -> exists c d', Deck.deal_card d = Ok (c, d').
Proof.
  intros Hne. unfold Deck.deal_card.
  destruct (Deck.cards d) as [|x l] eqn:E; [contradiction|].
  cbn [length Nat.eqb].
  destruct (rev (x :: l)) as [|y rest] eqn:Er.
  - apply (f_equal (@length _)) in Er. rewrite length_rev in Er. discriminate.
  - eexists _, _. reflexivity.
Qed.

(** [deal_card] either fails on the empty shoe or succeeds. *)
Lemma deal_card_cases (d : Deck.t) :
  (Deck.cards d = [] /\ Deck.deal_card d = Raise (Exception "Deck is empty!"))
  \/ exists c d', Deck.deal_card d = Ok (c, d').
Proof.
  destruct (Deck.cards d) as [|x l] eqn:E.
  - left. split; [reflexivity | now apply deal_card_empty].
  - right. apply deal_card_nonempty. now rewrite E.
Qed.

Lemma deal_card_length (d : Deck.t) (c : Card.t) (d' : Deck.t) :
  Deck.deal_card d = Ok (c, d') ->
  length (Deck.cards d) = S (length (Deck.cards d')).
Proof.
  intros H. apply deal_card_ok in H. destruct H as (-> & _).
  rewrite length_app. cbn. lia.
Qed.

(** C8. Between resets the live cards and the discards together are always
    the [52 * num_decks] cards of the shoe; a successful [deal_card] takes
    the last live card and appends that card to the discards, and on an
    empty shoe [deal_card] raises instead of returning a card. *)
Theorem deck_conservation (rng : Deck.Shuffle) :
  (forall d, since_reset rng d ->
     (Deck.cards_remaining d + length (Deck.discards d)
      = 52 * Deck.num_decks d)%nat) /\
  (forall d c d', Deck.deal_card d = Ok (c, d') ->
     Deck.cards d = Deck.cards d' ++ [c] /\
     Deck.discards d' = Deck.discards d ++ [c] /\
     Deck.cards_remaining d = S (Deck.cards_remaining d')) /\
  (forall d, Deck.cards_remaining d = O ->
     Deck.deal_card d = Raise (Exception "Deck is empty!")) /\
  (forall d, Deck.cards_remaining d <> O ->
     exists c d', Deck.deal_card d = Ok (c, d')).
Proof.
  split; [| split; [| split]].
  - intros d Hd. induction Hd as [d | d c d' Hd IH Hdeal].
    + rewrite reset_cards_remaining. cbn. lia.
    + pose proof (deal_card_length _ _ _ Hdeal) as Hlen.
      apply deal_card_ok in Hdeal. destruct Hdeal as (_ & Hdis & Hn & _).
      unfold Deck.cards_remaining in *. rewrite Hdis, Hn, length_app.
      cbn [length]. lia.
  - intros d c d' Hdeal. pose proof (deal_card_length _ _ _ Hdeal) as Hlen.
    apply deal_card_ok in Hdeal. destruct Hdeal as (Hc & Hdis & _).
    repeat split; assumption.
  - intros d Hz. apply deal_card_empty.
    now apply length_zero_iff_nil.
  - intros d Hnz. apply deal_card_nonempty.
    intros E. apply Hnz. unfold Deck.cards_remaining. now rewrite E.
Qed.

(** ** The cut card *)

Lemma cut_of_len_quarter (n : nat) :
  Deck.cut_of_len (52 * n) = 13 * Z.of_nat n.
Proof.
  unfold Deck.cut_of_len, Qfloor, Qmult, inject_Z. cbn [Qnum Qden].
  replace (Z.of_nat (52 * n) * 1) with (13 * Z.of_nat n * 4) by lia.
  apply Z.div_mul. discriminate.
Qed.

Lemma reset_cut_card (rng : Deck.Shuffle) (d : Deck.t) :
  Deck.cut_card_position (Deck.reset rng d) = 13 * Z.of_nat (Deck.num_decks d).
Proof.
  unfold Deck.reset. cbn [Deck.cut_card_position].
  now rewrite length_shuffle, length_fresh_cards, cut_of_len_quarter.
Qed.

Lemma cut_card_spec_default (n : nat) :
  cut_card_spec n (3 # 4) = 13 * Z.of_nat n.
Proof.
  unfold cut_card_spec, Qfloor, Qmult, Qminus, Qplus, Qopp, inject_Z.
  cbn [Qnum Qden]. change (Z.pos (1 * (1 * 4))) with 4.
  change (1 * 4 + - (3) * 1) with 1.
  replace (52 * Z.of_nat n * 1) with (13 * Z.of_nat n * 4) by lia.
  apply Z.div_mul. discriminate.
Qed.

(** C6. The cut card is not placed by the configured penetration. For six
    decks and a penetration of 0.5 the shoe built for the rules has its
    cut-card index at 78, where [floor(52 * 6 * (1 - 0.5))] is 156:
    [GameRules.penetration], "how deep into shoe before shuffle", is never
    read, and [reset] takes a quarter of the shoe for every rule set, which
    is the asked-for index at penetration 0.75 only. [needs_shuffle()]
    does hold exactly when [cards_remaining <= cut_card_position]. *)
Theorem cut_card_misses_penetration :
  let rules := rules_with_penetration (1 # 2) in
  let deck := BlackjackGame.deck (BlackjackGame.init no_shuffle rules) in
  Deck.cut_card_position deck = 78 /\
  cut_card_spec (GameRules.num_decks rules) (GameRules.penetration rules)
  = 156 /\
  (forall rng rules',
     Deck.cut_card_position
       (BlackjackGame.deck (BlackjackGame.init rng rules'))
     = cut_card_spec (GameRules.num_decks rules') (3 # 4)) /\
  (forall d,
     Deck.needs_shuffle d = true
     <-> Z.of_nat (Deck.cards_remaining d) <= Deck.cut_card_position d).
Proof.
  cbv zeta. split; [vm_compute; reflexivity|]. split; [reflexivity|]. split.
  - intros rng rules'. rewrite cut_card_spec_default.
    unfold BlackjackGame.init, Deck.init. cbn [BlackjackGame.deck].
    now rewrite reset_cut_card.
  - intros d. unfold Deck.needs_shuffle, Deck.cards_remaining.
    apply Z.leb_le.
Qed.

(** * Basic strategy: the pair of eights *)

(** C4. Under the default rules a two-card pair of 8s with splitting allowed
    is not always split: the surrender table is consulted first and the
    hand is a hard 16, so against a 9, a ten-valued card or an Ace the
    answer is [SURRENDER]; only against 2 to 8 is it [SPLIT]. *)
Theorem pair_of_eights_not_always_split
  (das can_double : bool) (s1 s2 su : Suit) (up : Rank) :
  let strategy := BasicStrategy.mk false true das in
  let hand := hand_of [Card.mk Eight s1; Card.mk Eight s2] in
  BasicStrategy.get_action BasicStrategy.default hand (card Ten) true true true
  = SURRENDER /\
  BasicStrategy.get_action strategy hand (Card.mk up su) can_double true true
  = (if existsb (Z.eqb (Card.value (Card.mk up su))) surrender_16_upcards
     then SURRENDER else SPLIT) /\
  BasicStrategy.get_action strategy hand (Card.mk up su) can_double true false
  = SPLIT.
Proof.
  cbv zeta. split; [reflexivity|].
  split; destruct das, can_double, up; reflexivity.
Qed.

(** * The dealer's turn *)

Lemma hard_value_pos (c : Card.t) : 1 <= hard_value c.
Proof.
  unfold hard_value, Card.value. destruct (Card.rank c); cbn; lia.
Qed.

Lemma hard_total_app (l1 l2 : list Card.t) :
  hard_total (l1 ++ l2) = hard_total l1 + hard_total l2.
Proof.
  induction l1 as [|c l1 IH]; cbn [app hard_total]; [reflexivity|].
  rewrite IH. lia.
Qed.

(** Every card taken raises the total with all Aces at 1. *)
Lemma hard_total_add_card (h : Hand.t) (c : Card.t) :
  hard_total (Hand.cards h) < hard_total (Hand.cards (Hand.add_card h c)).
Proof.
  unfold Hand.add_card, Hand.set_cards. cbn [Hand.cards].
  rewrite hard_total_app. cbn [hard_total].
  pose proof (hard_value_pos c) as Hpos. lia.
Qed.

Lemma hard_total_nonneg (cs : list Card.t) : 0 <= hard_total cs.
Proof.
  induction cs as [|c cs IH]; cbn [hard_total]; [lia|].
  pose proof (hard_value_pos c) as Hpos. lia.
Qed.

Lemma hard_total_le_value (h : Hand.t) : hard_total (Hand.cards h) <= Hand.value h.
Proof.
  rewrite value_eq.
  destruct (adjust_for_aces_spec (aces_in (Hand.cards h))
              (hard_total (Hand.cards h)
               + 10 * Z.of_nat (aces_in (Hand.cards h))))
    as (j & Hj & -> & _). lia.
Qed.

(** The loop of [play_dealer_hand] ends whenever it is given more fuel than
    the shoe has cards: either on a hand the dealer may stop on, having
    drawn at most 18 cards off the end of the shoe, or on the empty shoe. *)
Lemma dealer_loop_ends (fuel : nat) :
  forall (hits : bool) (deck : Deck.t) (dealer : Hand.t),
    (length (Deck.cards deck) < fuel)%nat ->
    (exists deck' dealer' drawn,
        BlackjackGame.dealer_loop fuel hits deck dealer
        = Some (Ok (deck', dealer')) /\
        dealer_done hits dealer' /\
        Hand.cards dealer' = Hand.cards dealer ++ drawn /\
        Deck.cards deck = Deck.cards deck' ++ rev drawn /\
        Z.of_nat (length drawn)
        <= Z.max 0 (18 - hard_total (Hand.cards dealer)))
    \/ BlackjackGame.dealer_loop fuel hits deck dealer
       = Some (Raise (Exception "Deck is empty!")).
Proof.
  induction fuel as [|fuel IH]; intros hits deck dealer Hfuel; [lia|].
  assert (Hstop : dealer_done hits dealer ->
          exists deck' dealer' drawn,
            Some (Ok (deck, dealer)) = Some (Ok (deck', dealer')) /\
            dealer_done hits dealer' /\
            Hand.cards dealer' = Hand.cards dealer ++ drawn /\
            Deck.cards deck = Deck.cards deck' ++ rev drawn /\
            Z.of_nat (length drawn)
            <= Z.max 0 (18 - hard_total (Hand.cards dealer))).
  { intros Hdone. exists deck, dealer, []. cbn [rev length].
    rewrite !app_nil_r. repeat split; try assumption. lia. }
  assert (Hhit : Hand.value dealer <= 17 ->
          (exists deck' dealer' drawn,
              match Deck.deal_card deck with
              | Raise e => Some (Raise e)
              | Ok (c, deck1) =>
                  BlackjackGame.dealer_loop fuel hits deck1
                    (Hand.add_card dealer c)
              end = Some (Ok (deck', dealer')) /\
              dealer_done hits dealer' /\
              Hand.cards dealer' = Hand.cards dealer ++ drawn /\
              Deck.cards deck = Deck.cards deck' ++ rev drawn /\
              Z.of_nat (length drawn)
              <= Z.max 0 (18 - hard_total (Hand.cards dealer)))
          \/ match Deck.deal_card deck with
             | Raise e => Some (Raise e)
             | Ok (c, deck1) =>
                 BlackjackGame.dealer_loop fuel hits deck1
                   (Hand.add_card dealer c)
             end = Some (Raise (Exception "Deck is empty!"))).
  { intros Hle.
    destruct (deal_card_cases deck) as [[_ ->] | (c & deck1 & Hdeal)];
      [now right|].
    rewrite Hdeal. pose proof (deal_card_length _ _ _ Hdeal) as Hlen.
    apply deal_card_ok in Hdeal. destruct Hdeal as (Hcards & _).
    destruct (IH hits deck1 (Hand.add_card dealer c)) as
      [(deck' & dealer' & drawn & Hrun & Hdone & Hd & Hk & Hn) | Hraise];
      [lia | | now right].
    left. exists deck', dealer', (c :: drawn).
    split; [exact Hrun|]. split; [exact Hdone|].
    pose proof (hard_total_add_card dealer c) as Hup.
    pose proof (hard_total_le_value dealer) as Hhv.
    split; [| split].
    - rewrite Hd. unfold Hand.add_card, Hand.set_cards. cbn [Hand.cards].
      now rewrite <- app_assoc.
    - rewrite Hcards, Hk. cbn [rev]. now rewrite <- app_assoc.
    - cbn [length]. lia. }
  cbn [BlackjackGame.dealer_loop].
  destruct (Z.gtb_spec (Hand.value dealer) 21) as [Hbust | Hnobust].
  { left. apply Hstop. left. exact Hbust. }
  destruct (Z.gtb_spec (Hand.value dealer) 17) as [Hhigh | Hlow].
  { left. apply Hstop. right. left. exact Hhigh. }
  destruct (Z.eqb_spec (Hand.value dealer) 17) as [H17 | Hn17].
  - destruct (hits && Hand.is_soft dealer) eqn:Esoft.
    + apply Hhit. lia.
    + left. apply Hstop. right. right. split; [exact H17|].
      intros ->. exact Esoft.
  - apply Hhit. lia.
Qed.

(** The outcome of the loop does not depend on the fuel once there is
    enough of it. *)
Lemma dealer_loop_more_fuel (fuel : nat) :
  forall (hits : bool) (deck : Deck.t) (dealer : Hand.t) r,
    BlackjackGame.dealer_loop fuel hits deck dealer = Some r ->
    forall fuel', (fuel <= fuel')%nat ->
      BlackjackGame.dealer_loop fuel' hits deck dealer = Some r.
Proof.
  induction fuel as [|fuel IH]; intros hits deck dealer r Hrun fuel' Hle;
    [discriminate Hrun|].
  destruct fuel' as [|fuel']; [lia|].
  cbn [BlackjackGame.dealer_loop] in *.
  destruct (Hand.value dealer >? 21); [exact Hrun|].
  destruct (Hand.value dealer >? 17); [exact Hrun|].
  destruct (Hand.value dealer =? 17);
    [destruct (hits && Hand.is_soft dealer); [| exact Hrun] |];
    (destruct (Deck.deal_card deck) as [[c d]|e];
     [apply (IH _ _ _ _ Hrun); lia | exact Hrun]).
Qed.

(** No assignment totals less than the hand with every Ace at 1, and one
    with an Ace at 11 totals at least ten more. *)
Lemma counts_as_hard_le (cs : list Card.t) (vs : list Z) :
  Forall2 counts_as cs vs -> hard_total cs <= sum_values vs.
Proof.
  induction 1 as [|c v cs vs Hc HF IH];
    cbn [hard_total sum_values fold_right]; unfold hard_value; [lia|].
  fold (sum_values vs). unfold counts_as in Hc.
  destruct (Rank_eqb (Card.rank c) Ace); lia.
Qed.

Lemma ace_as_11_costs_ten (cs : list Card.t) (vs : list Z) :
  Forall2 counts_as cs vs -> counts_an_ace_as_11 cs vs ->
  hard_total cs + 10 <= sum_values vs /\ (1 <= aces_in cs)%nat.
Proof.
  intros HF (i & a & Hn & Hr & Hv). revert i Hn Hv.
  induction HF as [|c v cs vs Hc HF IH]; intros i Hn Hv.
  - destruct i; discriminate Hn.
  - cbn [hard_total sum_values fold_right aces_in]; unfold hard_value.
    fold (sum_values vs).
    destruct i as [|i]; cbn [nth_error] in Hn, Hv.
    + injection Hn as ->. injection Hv as ->.
      apply Rank_eqb_eq in Hr. rewrite Hr.
      apply counts_as_hard_le in HF. split; lia.
    + destruct (IH i Hn Hv) as [Hsum Haces]. unfold counts_as in Hc.
      destruct (Rank_eqb (Card.rank c) Ace); split; lia.
Qed.

(** With a single Ace [is_soft()] is exact: a soft hand is recognised. *)
Lemma is_soft_complete_one_ace (h : Hand.t) :
  soft_hand h -> (aces_in (Hand.cards h) <= 1)%nat -> Hand.is_soft h = true.
Proof.
  intros (Hle & vs & HF & Hsum & Hace) Hone.
  destruct (ace_as_11_costs_ten _ _ HF Hace) as [Hten Hsome].
  rewrite is_soft_eq. apply andb_true_intro. split.
  - apply Nat.ltb_lt. lia.
  - apply Z.leb_le. lia.
Qed.

Lemma game_unchanged (g : BlackjackGame.t) :
  BlackjackGame.set_dealer_hand
    (BlackjackGame.set_deck g (BlackjackGame.deck g))
    (BlackjackGame.dealer_hand g) = g.
Proof. now destruct g. Qed.

(** C5, as the code has it. [play_dealer_hand] always ends: every pass of
    its loop that goes on takes a card from the finite shoe and raises the
    total with all Aces at 1, so it ends after at most 18 cards, on the
    empty shoe with "Deck is empty!" or else on a hand that is bust, above
    17, or at exactly 17. Under S17 every 17 is stood on, and so is every
    17 that [is_soft()] rejects; under H17 no 17 that [is_soft()] accepts
    is stood on, so a final 17 with at most one Ace is a hard 17. *)
Theorem play_dealer_hand_ends (g : BlackjackGame.t) :
  let hits := GameRules.dealer_hits_soft_17 (BlackjackGame.rules g) in
  let dealer := BlackjackGame.dealer_hand g in
  (exists r, BlackjackGame.play_dealer_hand g = Some r /\
     match r with
     | Raise e => e = Exception "Deck is empty!"
     | Ok g' =>
         let dealer' := BlackjackGame.dealer_hand g' in
         dealer_done hits dealer' /\
         (hits = true -> Hand.value dealer' = 17 ->
          (aces_in (Hand.cards dealer') <= 1)%nat -> ~ soft_hand dealer') /\
         exists drawn,
           (length drawn <= 18)%nat /\
           Hand.cards dealer' = Hand.cards dealer ++ drawn /\
           Deck.cards (BlackjackGame.deck g)
           = Deck.cards (BlackjackGame.deck g') ++ rev drawn
     end) /\
  (Hand.value dealer = 17 ->
   hits = false \/ Hand.is_soft dealer = false ->
   BlackjackGame.play_dealer_hand g = Some (Ok g)) /\
  (Hand.value dealer = 17 -> hits = true -> Hand.is_soft dealer = true ->
   BlackjackGame.play_dealer_hand g <> Some (Ok g)).
Proof.
  cbv zeta.
  assert (Hmain :
    exists r, BlackjackGame.play_dealer_hand g = Some r /\
     match r with
     | Raise e => e = Exception "Deck is empty!"
     | Ok g' =>
         dealer_done (GameRules.dealer_hits_soft_17 (BlackjackGame.rules g))
           (BlackjackGame.dealer_hand g') /\
         (GameRules.dealer_hits_soft_17 (BlackjackGame.rules g) = true ->
          Hand.value (BlackjackGame.dealer_hand g') = 17 ->
          (aces_in (Hand.cards (BlackjackGame.dealer_hand g')) <= 1)%nat ->
          ~ soft_hand (BlackjackGame.dealer_hand g')) /\
         exists drawn,
           (length drawn <= 18)%nat /\
           Hand.cards (BlackjackGame.dealer_hand g')
           = Hand.cards (BlackjackGame.dealer_hand g) ++ drawn /\
           Deck.cards (BlackjackGame.deck g)
           = Deck.cards (BlackjackGame.deck g') ++ rev drawn
     end).
  { unfold BlackjackGame.play_dealer_hand, Deck.cards_remaining.
    destruct (dealer_loop_ends
                (S (length (Deck.cards (BlackjackGame.deck g))))
                (GameRules.dealer_hits_soft_17 (BlackjackGame.rules g))
                (BlackjackGame.deck g) (BlackjackGame.dealer_hand g))
      as [(deck' & dealer' & drawn & -> & Hdone & Hd & Hk & Hn) | ->];
      [lia | | eexists; split; reflexivity].
    eexists. split; [reflexivity|]. cbn.
    split; [exact Hdone|]. split.
    - intros Hh Hv Hone Hsoft.
      apply is_soft_complete_one_ace in Hsoft; [| exact Hone].
      destruct Hdone as [Hb | [Hb | [_ Hns]]]; try lia.
      rewrite (Hns Hh) in Hsoft. discriminate.
    - exists drawn. split; [| split; assumption].
      pose proof (hard_total_nonneg (Hand.cards (BlackjackGame.dealer_hand g))).
      lia. }
  split; [exact Hmain|]. split.
  - intros Hv Hstand.
    unfold BlackjackGame.play_dealer_hand. cbn [BlackjackGame.dealer_loop].
    rewrite Hv.
    replace (GameRules.dealer_hits_soft_17 (BlackjackGame.rules g)
             && Hand.is_soft (BlackjackGame.dealer_hand g)) with false
      by (destruct Hstand as [-> | ->];
          [reflexivity | now rewrite andb_false_r]).
    change (17 >? 21) with false. change (17 >? 17) with false.
    change (17 =? 17) with true. cbn iota.
    now rewrite game_unchanged.
  - intros Hv Hh Hsoft Hsame.
    destruct Hmain as (r & Hr & Hspec). rewrite Hsame in Hr.
    injection Hr as <-. destruct Hspec as (Hdone & _).
    destruct Hdone as [Hb | [Hb | [_ Hns]]]; try lia.
    rewrite (Hns Hh) in Hsoft. discriminate.
Qed.

(** C5, counterexample. The dealer's soft 16 {A, 5} takes a King and is a
    hard 16: the hit
    neither busts the hand nor raises its value (and the loop goes on to the
    next card). And under H17 the dealer stands on {A, A, 5}, a 17 that
    counts an Ace as 11. *)
Lemma dealer_hit_need_not_raise_value :
  let h := hand_of [card Ace; card Five] in
  let h' := Hand.add_card h (card King) in
  let g := game_at GameRules.default [card Five; card King] [] h O in
  let soft17 := hand_of [card Ace; card Ace; card Five] in
  let g17 := game_at rules_h17 [card Two] [] soft17 O in
  ~ (Hand.is_bust h' = true \/ Hand.value h < Hand.value h') /\
  (exists g', BlackjackGame.play_dealer_hand g = Some (Ok g') /\
     Hand.cards (BlackjackGame.dealer_hand g')
     = [card Ace; card Five; card King; card Five]) /\
  (BlackjackGame.play_dealer_hand g17 = Some (Ok g17) /\
   Hand.value soft17 = 17 /\ soft_hand soft17).
Proof.
  cbv zeta. split; [| split].
  - intros [H | H]; vm_compute in H; discriminate H.
  - eexists. split; reflexivity.
  - split; [reflexivity|]. split; [reflexivity|].
    split; [vm_compute; discriminate|].
    exists [11; 1; 5]. split.
    + constructor; [now right|]. constructor; [now left|].
      constructor; [reflexivity | constructor].
    + split; [reflexivity|]. exists O, (card Ace). repeat split.
Qed.

(** * The player's turn *)

Lemma nth_error_split_at {A : Type} (l : list A) (i : nat) (x : A) :
  nth_error l i = Some x ->
  l = firstn i l ++ x :: skipn (S i) l /\ length (firstn i l) = i.
Proof.
  revert i. induction l as [|a l IH]; intros i Hn.
  - destruct i; discriminate Hn.
  - destruct i as [|i]; cbn [nth_error] in Hn.
    + injection Hn as ->. split; reflexivity.
    + destruct (IH i Hn) as [Heq Hlen].
      change (skipn (S (S i)) (a :: l)) with (skipn (S i) l).
      cbn [firstn app length]. split; [now f_equal | now f_equal].
Qed.

Lemma nth_error_middle {A : Type} (a b : list A) (x : A) :
  nth_error (a ++ x :: b) (length a) = Some x.
Proof.
  induction a as [|y a IH]; cbn [app length nth_error]; [reflexivity | exact IH].
Qed.

Lemma firstn_skipn_middle {A : Type} (a b : list A) (x : A) :
  firstn (length a + 1) (a ++ x :: b) = a ++ [x] /\
  skipn (length a + 1) (a ++ x :: b) = b.
Proof.
  induction a as [|y a [IH1 IH2]]; cbn [app length Nat.add firstn skipn].
  - split; reflexivity.
  - rewrite IH1, IH2. split; reflexivity.
Qed.

Lemma nth_error_pair_at {A : Type} (a b : list A) (x y : A) (i : nat) :
  length a = i ->
  nth_error (a ++ x :: y :: b) i = Some x /\
  nth_error (a ++ x :: y :: b) (S i) = Some y.
Proof.
  intros <-. induction a as [|z a IH]; cbn [app length nth_error];
    [split; reflexivity | exact IH].
Qed.

(** The hand written back at the cursor is the current hand. *)
Lemma get_put_current_hand (g : BlackjackGame.t) (old new : Hand.t) :
  BlackjackGame.get_current_hand g = Ok old ->
  BlackjackGame.get_current_hand (BlackjackGame.put_current_hand g new) = Ok new.
Proof.
  unfold BlackjackGame.get_current_hand, BlackjackGame.put_current_hand, list_set.
  cbn [BlackjackGame.player_hands BlackjackGame.set_player_hands
       BlackjackGame.current_hand_index].
  destruct (nth_error (BlackjackGame.player_hands g)
              (BlackjackGame.current_hand_index g)) as [h|] eqn:E;
    [| discriminate].
  intros _. destruct (nth_error_split_at _ _ _ E) as [_ Hlen].
  rewrite <- Hlen at 3. now rewrite nth_error_middle.
Qed.

(** Inserting after the cursor the hand split off the one just written back. *)
Lemma insert_after_set {A : Type} (l : list A) (i : nat) (x y z : A) :
  nth_error l i = Some x ->
  list_insert (list_set l i y) (i + 1) z
  = firstn i l ++ y :: z :: skipn (S i) l.
Proof.
  intros Hn. destruct (nth_error_split_at _ _ _ Hn) as [_ Hlen].
  unfold list_insert, list_set.
  destruct (firstn_skipn_middle (firstn i l) (skipn (S i) l) y) as [Hf Hs].
  rewrite Hlen in Hf, Hs. rewrite Hf, Hs, <- app_assoc. reflexivity.
Qed.

(** The engine's [hit] alone never moves the cursor. *)
Lemma hit_keeps_cursor (g : BlackjackGame.t) (c : Card.t) (g' : BlackjackGame.t) :
  BlackjackGame.hit g = Ok (c, g') ->
  BlackjackGame.current_hand_index g' = BlackjackGame.current_hand_index g.
Proof.
  unfold BlackjackGame.hit.
  destruct (BlackjackGame.get_current_hand g) as [hand|e]; [| discriminate].
  cbn [bind]. destruct (Deck.deal_card (BlackjackGame.deck g)) as [[c' d']|e];
    [| discriminate].
  cbn [bind]. intros H. injection H as _ <-. reflexivity.
Qed.

(** A hand that can be split holds exactly two cards. *)
Lemma can_split_two_cards (hand : Hand.t) :
  Hand.can_split hand = true ->
  exists first second, Hand.cards hand = [first; second].
Proof.
  unfold Hand.can_split, Hand.is_pair. intros H.
  apply andb_prop in H. destruct H as [H _].
  destruct (Hand.cards hand) as [|c0 [|c1 [|c2 l]]]; try discriminate H.
  now exists c0, c1.
Qed.

(** C7. In the player-turn loop, on a hand that is not bust: Stand, a legal
    Double, a legal Surrender and a Hit that busts move the cursor forward
    by exactly one (a Hit that does not bust leaves it); a legal Split
    leaves the cursor where it is and puts the split-off hand right after
    the current one, which keeps its first card, gets a new one and is
    still the hand at the cursor. *)
Theorem cursor_after_player_action (g : BlackjackGame.t) (hand : Hand.t) :
  let i := BlackjackGame.current_hand_index g in
  let hands := BlackjackGame.player_hands g in
  let shoe := Deck.cards (BlackjackGame.deck g) in
  BlackjackGame.get_current_hand g = Ok hand ->
  Hand.is_bust hand = false ->
  (exists g',
      FullGameSimulator.player_turn g FullGameSimulator.IN_S = Ok g' /\
      BlackjackGame.current_hand_index g' = S i /\
      BlackjackGame.player_hands g' = hands) /\
  (Hand.can_double hand = true -> shoe <> [] ->
   exists g',
     FullGameSimulator.player_turn g FullGameSimulator.IN_D = Ok g' /\
     BlackjackGame.current_hand_index g' = S i) /\
  (length (Hand.cards hand) = 2%nat ->
   exists g',
     FullGameSimulator.player_turn g FullGameSimulator.IN_SR = Ok g' /\
     BlackjackGame.current_hand_index g' = S i) /\
  (shoe <> [] ->
   exists g' c,
     FullGameSimulator.player_turn g FullGameSimulator.IN_H = Ok g' /\
     nth_error (BlackjackGame.player_hands g') i = Some (Hand.add_card hand c) /\
     BlackjackGame.current_hand_index g'
     = if Hand.is_bust (Hand.add_card hand c) then S i else i) /\
  (Hand.can_split hand = true ->
   Z.of_nat (length hands)
   < GameRules.max_splits (BlackjackGame.rules g) + 1 ->
   (2 <= length shoe)%nat ->
   exists g' first second c1 c2 hand1 hand2,
     FullGameSimulator.player_turn g FullGameSimulator.IN_SP = Ok g' /\
     Hand.cards hand = [first; second] /\
     Hand.cards hand1 = [first; c1] /\
     Hand.cards hand2 = [second; c2] /\
     BlackjackGame.current_hand_index g' = i /\
     BlackjackGame.player_hands g'
     = firstn i hands ++ hand1 :: hand2 :: skipn (S i) hands /\
     nth_error (BlackjackGame.player_hands g') i = Some hand1 /\
     nth_error (BlackjackGame.player_hands g') (S i) = Some hand2).
Proof.
  cbv zeta. intros Hcur Hbust.
  unfold FullGameSimulator.player_turn. rewrite Hcur. cbn [bind].
  rewrite Hbust.
  split; [| split; [| split; [| split]]].
  - eexists. split; [reflexivity|]. cbn. split; [lia | reflexivity].
  - intros Hcd Hshoe.
    destruct (deal_card_nonempty _ Hshoe) as (c & d' & Hdeal).
    unfold BlackjackGame.double_down. rewrite Hcur. cbn [bind].
    rewrite Hcd. cbn [negb]. rewrite Hdeal.
    cbn [bind FullGameSimulator.except_ValueError].
    eexists. split; [reflexivity|]. cbn. lia.
  - intros Hlen. unfold BlackjackGame.surrender. rewrite Hcur. cbn [bind].
    rewrite Hlen. cbn [Nat.eqb negb FullGameSimulator.except_ValueError].
    eexists. split; [reflexivity|]. cbn. lia.
  - intros Hshoe.
    destruct (deal_card_nonempty _ Hshoe) as (c & d' & Hdeal).
    unfold BlackjackGame.hit. rewrite Hcur. cbn [bind]. rewrite Hdeal.
    cbn [bind].
    assert (BlackjackGame.get_current_hand (BlackjackGame.set_deck g d')
            = Ok hand) as Hcur' by exact Hcur.
    pose proof (get_put_current_hand _ _ (Hand.add_card hand c) Hcur') as Hget.
    rewrite Hget. cbn [bind].
    unfold BlackjackGame.get_current_hand in Hget.
    destruct (nth_error _ _) as [h'|] eqn:En in Hget; [| discriminate Hget].
    injection Hget as ->.
    destruct (Hand.is_bust (Hand.add_card hand c)) eqn:Eb.
    + eexists _, c. rewrite Eb. split; [reflexivity|]. split; [exact En|].
      cbn. lia.
    + eexists _, c. rewrite Eb. split; [reflexivity|].
      split; [exact En | reflexivity].
  - intros Hcs Hmax Hshoe.
    destruct (can_split_two_cards _ Hcs) as (first & second & Hcards).
    destruct (deal_card_nonempty (BlackjackGame.deck g)) as (c1 & d1 & Hdeal1).
    { intros E. rewrite E in Hshoe. cbn in Hshoe. lia. }
    pose proof (deal_card_length _ _ _ Hdeal1) as Hlen1.
    destruct (deal_card_nonempty d1) as (c2 & d2 & Hdeal2).
    { intros E. rewrite E in Hlen1. cbn in Hlen1. lia. }
    unfold BlackjackGame.split. rewrite Hcur. cbn [bind].
    rewrite Hcs. cbn [negb].
    destruct (Z.of_nat (length (BlackjackGame.player_hands g))
              >=? GameRules.max_splits (BlackjackGame.rules g) + 1) eqn:Eg.
    { apply Z.geb_le in Eg. lia. }
    rewrite Hcards. cbn [rev app]. rewrite Hdeal1. cbn [bind].
    rewrite Hdeal2. cbn [bind FullGameSimulator.except_ValueError].
    unfold BlackjackGame.get_current_hand in Hcur.
    destruct (nth_error _ _) as [h|] eqn:En in Hcur; [| discriminate Hcur].
    eexists _, first, second, c1, c2,
      (Hand.add_card (Hand.set_is_split (Hand.set_cards hand [first]) true) c1),
      (Hand.add_card
         (Hand.set_is_split
            (Hand.set_bet (Hand.add_card Hand.init second) (Hand.bet hand))
            true) c2).
    split; [reflexivity|].
    split; [reflexivity|]. split; [reflexivity|]. split; [reflexivity|].
    split; [reflexivity|].
    cbn [BlackjackGame.player_hands BlackjackGame.set_player_hands
         BlackjackGame.put_current_hand BlackjackGame.set_deck
         BlackjackGame.current_hand_index].
    rewrite (insert_after_set _ _ h _ _ En).
    split; [reflexivity|].
    apply nth_error_pair_at. now apply (nth_error_split_at _ _ h).
Qed.

(** * The theorems at work on concrete rounds *)

Lemma hand_of_cards (cs : list Card.t) : Hand.cards (hand_of cs) = cs.
Proof.
  unfold hand_of.
  assert (forall h, Hand.cards (fold_left Hand.add_card cs h) = Hand.cards h ++ cs)
    as Hgen.
  { induction cs as [|c cs IH]; intros h; cbn [fold_left].
    - now rewrite app_nil_r.
    - rewrite IH. unfold Hand.add_card, Hand.set_cards. cbn [Hand.cards].
      now rewrite <- app_assoc. }
  now rewrite Hgen.
Qed.

(** The settlements the specification lists: 19 against 18 wins the bet, a
    blackjack is paid 3:2, two blackjacks push, a surrender costs half. *)
Lemma resolve_hand_precedence_witness :
  let ten_nine := hand_with_bet [card Ten; card Nine] 100 in
  let ten_eight := hand_of [card Ten; card Eight] in
  let natural := hand_with_bet [card Ace; card King] 100 in
  let dealer_natural := hand_of [card Queen; card Ace] in
  (BlackjackGame.resolve_hand (showdown ten_nine ten_eight) ten_nine == 100)%Q /\
  (BlackjackGame.resolve_hand (showdown natural ten_eight) natural
   == 100 * (3 # 2))%Q /\
  (BlackjackGame.resolve_hand (showdown natural dealer_natural) natural == 0)%Q /\
  (BlackjackGame.resolve_hand (showdown ten_nine ten_eight)
     (Hand.set_is_surrendered ten_nine true) == - (1 # 2) * 100)%Q.
Proof.
  cbv zeta. split; [| split; [| split]].
  - pose proof (resolve_hand_precedence
                  (showdown (hand_with_bet [card Ten; card Nine] 100)
                     (hand_of [card Ten; card Eight]))
                  (hand_with_bet [card Ten; card Nine] 100))
      as (_ & _ & _ & _ & _ & _ & _ & Hwin & _).
    apply Hwin; reflexivity || (vm_compute; discriminate).
  - pose proof (resolve_hand_precedence
                  (showdown (hand_with_bet [card Ace; card King] 100)
                     (hand_of [card Ten; card Eight]))
                  (hand_with_bet [card Ace; card King] 100))
      as (_ & _ & _ & Hnatural & _).
    apply Hnatural; reflexivity || (vm_compute; discriminate).
  - pose proof (resolve_hand_precedence
                  (showdown (hand_with_bet [card Ace; card King] 100)
                     (hand_of [card Queen; card Ace]))
                  (hand_with_bet [card Ace; card King] 100))
      as (_ & _ & Hpush & _).
    apply Hpush; reflexivity || (vm_compute; discriminate).
  - pose proof (resolve_hand_precedence
                  (showdown (hand_with_bet [card Ten; card Nine] 100)
                     (hand_of [card Ten; card Eight]))
                  (Hand.set_is_surrendered
                     (hand_with_bet [card Ten; card Nine] 100) true))
      as (Hsurrender & _).
    apply Hsurrender; reflexivity.
Defined.

(** Splitting a pair of Aces and drawing a Queen on the first: the hand is
    paid 3:2 on its 100 against the dealer's 19. *)
Lemma split_hand_21_paid_as_blackjack_witness :
  let g := game_at GameRules.default [card Two; card King; card Queen]
             [hand_with_bet [card Ace; card Ace] 100]
             (hand_of [card Ten; card Nine]) O in
  exists hand new_hand g',
    BlackjackGame.split g = Ok ((hand, new_hand), g') /\
    Hand.cards hand = [card Ace; card Queen] /\
    Hand.is_blackjack hand = true /\
    (BlackjackGame.resolve_hand g' hand == 100 * (3 # 2))%Q.
Proof.
  cbv zeta. eexists _, _, _. split; [reflexivity|]. split; [reflexivity|].
  match goal with
  | |- Hand.is_blackjack ?h = true /\ (BlackjackGame.resolve_hand ?g ?h == _)%Q =>
      destruct (split_hand_21_paid_as_blackjack g h eq_refl eq_refl eq_refl)
        as (Hbj & _ & Hpay)
  end.
  split; [exact Hbj|].
  destruct (Hpay eq_refl) as [Hwin _]. exact (Hwin eq_refl).
Defined.

(** A pair of 8s split at the cursor: the cursor stays and there are two
    hands to play. *)
Lemma cursor_after_player_action_witness :
  let g := game_at GameRules.default [card Two; card Three; card Four]
             [hand_with_bet [card Eight; card Eight] 100]
             (hand_of [card Ten; card Nine]) O in
  exists g',
    FullGameSimulator.player_turn g FullGameSimulator.IN_SP = Ok g' /\
    BlackjackGame.current_hand_index g' = O /\
    length (BlackjackGame.player_hands g') = 2%nat.
Proof.
  cbv zeta.
  destruct (cursor_after_player_action
              (game_at GameRules.default [card Two; card Three; card Four]
                 [hand_with_bet [card Eight; card Eight] 100]
                 (hand_of [card Ten; card Nine]) O)
              (hand_with_bet [card Eight; card Eight] 100)
              eq_refl eq_refl) as (_ & _ & _ & _ & Hsplit).
  destruct Hsplit
    as (g' & c & c' & c1 & c2 & h1 & h2 & Hrun & _ & _ & _ & Hi & Hh & _).
  - reflexivity.
  - reflexivity.
  - cbn. lia.
  - exists g'. split; [exact Hrun|]. split; [exact Hi|].
    rewrite Hh. reflexivity.
Defined.

(** Two cards dealt from a fresh single deck: 50 live cards and 2 discards. *)
Lemma deck_conservation_witness :
  exists cs d,
    deal_cards 2 (Deck.init no_shuffle 1) = Ok (cs, d) /\
    (Deck.cards_remaining d + length (Deck.discards d) = 52)%nat /\
    length (Deck.discards d) = 2%nat.
Proof.
  eexists _, _. split; [vm_compute; reflexivity|].
  split; [| reflexivity].
  apply (proj1 (deck_conservation no_shuffle)).
  eapply after_deal;
    [eapply after_deal; [apply (after_reset no_shuffle (Deck.mk 1 [] [] 0))|] |];
    vm_compute; reflexivity.
Defined.

(** A running count of 6 over three decks and over none. *)
Lemma get_true_count_total_witness :
  let c := HiLoCounter.mk 6 20 6 in
  HiLoCounter.get_true_count c 3 = Ok (inject_Z 6 / 3)%Q /\
  HiLoCounter.get_true_count c 0 = Ok 0%Q.
Proof.
  cbv zeta. split.
  - apply (get_true_count_total (HiLoCounter.mk 6 20 6) 3). reflexivity.
  - apply (get_true_count_total (HiLoCounter.mk 6 20 6) 0). discriminate.
Defined.

(** * Further properties of hands *)

Lemma value_cases (h : Hand.t) :
  hard_total (Hand.cards h) <= Hand.value h /\
  (Hand.value h <= 21 \/ Hand.value h = hard_total (Hand.cards h)).
Proof.
  rewrite value_eq.
  destruct (adjust_for_aces_spec (aces_in (Hand.cards h))
              (hard_total (Hand.cards h)
               + 10 * Z.of_nat (aces_in (Hand.cards h))))
    as (j & Hj & Heq & Hstop & _).
  split; [lia|]. destruct Hstop as [Hle | ->]; [left; exact Hle | right; lia].
Qed.

(** X1. A hand is bust exactly when it is above 21 even with every Ace
    counted as 1. *)
Theorem is_bust_iff_hard_total (h : Hand.t) :
  Hand.is_bust h = true <-> 21 < hard_total (Hand.cards h).
Proof.
  unfold Hand.is_bust. destruct (value_cases h) as [Hle Hcases].
  split.
  - intros Hb. apply Z.gtb_lt in Hb. destruct Hcases; lia.
  - intros Hh. apply Z.gtb_lt. lia.
Qed.

(** X2. [is_blackjack()] holds exactly for an Ace with a ten-valued card, in
    either order, and nothing else in the hand. *)
Theorem is_blackjack_iff (h : Hand.t) :
  Hand.is_blackjack h = true <->
  exists c1 c2,
    Hand.cards h = [c1; c2] /\
    ((Card.rank c1 = Ace /\ ten_valued c2)
     \/ (ten_valued c1 /\ Card.rank c2 = Ace)).
Proof.
  unfold Hand.is_blackjack, Hand.value, ten_valued.
  split.
  - intros Hbj. apply andb_prop in Hbj. destruct Hbj as [Hlen Hval].
    destruct (Hand.cards h) as [|[r1 s1] [|[r2 s2] [|c3 l]]];
      try discriminate Hlen.
    exists (Card.mk r1 s1), (Card.mk r2 s2). split; [reflexivity|].
    destruct r1, r2; try discriminate Hval;
      (left; split; reflexivity) || (right; split; reflexivity).
  - intros ([r1 s1] & [r2 s2] & -> & Hshape). cbn [Card.rank] in Hshape.
    destruct Hshape as [[-> Hten] | [Hten ->]];
      [destruct r2 | destruct r1]; try discriminate Hten; reflexivity.
Qed.

Lemma hard_value_le_10 (c : Card.t) : hard_value c <= 10.
Proof.
  unfold hard_value, Card.value. destruct (Card.rank c); cbn; lia.
Qed.

Lemma hard_total_of_add_card (h : Hand.t) (c : Card.t) :
  hard_total (Hand.cards (Hand.add_card h c))
  = hard_total (Hand.cards h) + hard_value c.
Proof.
  unfold Hand.add_card, Hand.set_cards. cbn [Hand.cards].
  rewrite hard_total_app. cbn [hard_total]. lia.
Qed.

(** One more card takes the value at most ten above the old one, unless the
    new hand is not bust. *)
Lemma value_add_card_bound (h : Hand.t) (c : Card.t) :
  Hand.value (Hand.add_card h c) <= Z.max (Hand.value h + 10) 21.
Proof.
  destruct (value_cases (Hand.add_card h c)) as [_ [Hle | Heq]]; [lia|].
  rewrite Heq, hard_total_of_add_card.
  pose proof (hard_value_le_10 c). destruct (value_cases h) as [Hh _]. lia.
Qed.

(** X3. A hand for which [is_soft()] holds cannot be bust after one more
    card, whatever the card. *)
Theorem soft_hand_survives_a_hit (h : Hand.t) (c : Card.t) :
  Hand.is_soft h = true -> Hand.is_bust (Hand.add_card h c) = false.
Proof.
  rewrite is_soft_eq. intros E. apply andb_prop in E. destruct E as [Ha Ht].
  apply Nat.ltb_lt in Ha. apply Z.leb_le in Ht.
  unfold Hand.is_bust.
  destruct (Z.gtb_spec (Hand.value (Hand.add_card h c)) 21) as [Hb|];
    [| reflexivity].
  exfalso.
  destruct (value_cases (Hand.add_card h c)) as [_ [Hle | Heq]]; [lia|].
  rewrite Heq, hard_total_of_add_card in Hb.
  pose proof (hard_value_le_10 c). lia.
Qed.

Lemma soft_hit_not_bust (h : Hand.t) (c : Card.t) :
  Hand.is_soft h = true -> Hand.value (Hand.add_card h c) <= 21.
Proof.
  rewrite is_soft_eq. intros E. apply andb_prop in E. destruct E as [Ha Ht].
  apply Nat.ltb_lt in Ha. apply Z.leb_le in Ht.
  destruct (value_cases (Hand.add_card h c)) as [_ [Hle | Heq]]; [lia|].
  rewrite Heq, hard_total_of_add_card.
  pose proof (hard_value_le_10 c). lia.
Qed.

(** Whatever the fuel, a hand the loop returns is one the dealer may stop
    on, and its value is at most 26 unless the loop started above that. *)
Lemma dealer_loop_bound (fuel : nat) :
  forall (hits : bool) (deck : Deck.t) (dealer : Hand.t) deck' dealer',
    BlackjackGame.dealer_loop fuel hits deck dealer = Some (Ok (deck', dealer')) ->
    dealer_done hits dealer' /\
    Hand.value dealer' <= Z.max (Hand.value dealer) 26.
Proof.
  induction fuel as [|fuel IH]; intros hits deck dealer deck' dealer' Hrun;
    [discriminate Hrun|].
  cbn [BlackjackGame.dealer_loop] in Hrun.
  destruct (Z.gtb_spec (Hand.value dealer) 21) as [Hbust | Hnobust].
  { injection Hrun as <- <-. split; [left; exact Hbust | lia]. }
  destruct (Z.gtb_spec (Hand.value dealer) 17) as [Hhigh | Hlow].
  { injection Hrun as <- <-. split; [right; left; exact Hhigh | lia]. }
  destruct (Z.eqb_spec (Hand.value dealer) 17) as [H17 | Hn17].
  - destruct (hits && Hand.is_soft dealer) eqn:Esoft.
    + destruct (Deck.deal_card deck) as [[c deck1]|e]; [| discriminate Hrun].
      destruct (IH _ _ _ _ _ Hrun) as [Hdone Hle]. split; [exact Hdone|].
      apply andb_prop in Esoft. destruct Esoft as [_ Hsoft].
      pose proof (soft_hit_not_bust dealer c Hsoft). lia.
    + injection Hrun as <- <-. split; [| lia].
      right. right. split; [exact H17|]. intros ->. exact Esoft.
  - destruct (Deck.deal_card deck) as [[c deck1]|e]; [| discriminate Hrun].
    destruct (IH _ _ _ _ _ Hrun) as [Hdone Hle]. split; [exact Hdone|].
    pose proof (value_add_card_bound dealer c). lia.
Qed.

(** X4. When [play_dealer_hand] returns on a dealer hand that was not bust
    to begin with, the dealer's total is between 17 and 26. *)
Theorem dealer_final_total (g g' : BlackjackGame.t) :
  BlackjackGame.play_dealer_hand g = Some (Ok g') ->
  Hand.value (BlackjackGame.dealer_hand g) <= 21 ->
  17 <= Hand.value (BlackjackGame.dealer_hand g') <= 26.
Proof.
  unfold BlackjackGame.play_dealer_hand. intros Hrun Hstart.
  destruct (BlackjackGame.dealer_loop _ _ _ _) as [[[deck' dealer']|e]|] eqn:E;
    try discriminate Hrun.
  injection Hrun as <-. cbn [BlackjackGame.dealer_hand BlackjackGame.set_dealer_hand].
  destruct (dealer_loop_bound _ _ _ _ _ _ E) as [Hdone Hle].
  destruct Hdone as [Hb | [Hb | [Hb _]]]; lia.
Qed.

(** The dealer's 16 draws a Queen and ends on 26. *)
Lemma dealer_final_total_witness :
  let g := game_at GameRules.default [card Queen] []
             (hand_of [card Ten; card Six]) O in
  exists g',
    BlackjackGame.play_dealer_hand g = Some (Ok g') /\
    17 <= Hand.value (BlackjackGame.dealer_hand g') <= 26.
Proof.
  cbv zeta. eexists. split; [reflexivity|].
  apply (dealer_final_total
           (game_at GameRules.default [card Queen] []
              (hand_of [card Ten; card Six]) O));
    [reflexivity | vm_compute; discriminate].
Defined.

(** A soft 17 takes a five and is not bust. *)
Lemma soft_hand_survives_a_hit_witness :
  Hand.is_bust (Hand.add_card (hand_of [card Ace; card Six]) (card Five)) = false.
Proof.
  apply (soft_hand_survives_a_hit (hand_of [card Ace; card Six]) (card Five)).
  reflexivity.
Defined.

(** * What one pass of the player-turn loop can do *)

Lemma player_turn_cases (g : BlackjackGame.t) (input : FullGameSimulator.Input)
  (g' : BlackjackGame.t) :
  FullGameSimulator.player_turn g input = Ok g' -> turn_outcome g g'.
Proof.
  unfold FullGameSimulator.player_turn.
  destruct (BlackjackGame.get_current_hand g) as [hand|e] eqn:Hcur;
    [| discriminate].
  cbn [bind]. intros Hrun.
  assert (nth_error (BlackjackGame.player_hands g)
            (BlackjackGame.current_hand_index g) = Some hand) as Hnth.
  { unfold BlackjackGame.get_current_hand in Hcur.
    destruct (nth_error _ _); [now injection Hcur as -> | discriminate]. }
  assert (Hsame : forall g1, Ok g1 = Ok g' ->
            BlackjackGame.dealer_hand g1 = BlackjackGame.dealer_hand g ->
            BlackjackGame.player_hands g1 = BlackjackGame.player_hands g ->
            BlackjackGame.deck g1 = BlackjackGame.deck g ->
            turn_outcome g g').
  { intros g1 E Hd Hp Hk. injection E as <-. split; [exact Hd|].
    exists hand. split; [exact Hnth|]. left. split; assumption. }
  unfold turn_outcome in Hsame |- *.
  destruct (Hand.is_bust hand); [now apply (Hsame _ Hrun)|].
  destruct input.
  - (* hit *)
    unfold BlackjackGame.hit in Hrun. rewrite Hcur in Hrun. cbn [bind] in Hrun.
    destruct (Deck.deal_card (BlackjackGame.deck g)) as [[c d']|e] eqn:Hdeal;
      [| discriminate].
    cbn [bind] in Hrun.
    assert (BlackjackGame.get_current_hand (BlackjackGame.set_deck g d')
            = Ok hand) as Hcur' by exact Hcur.
    rewrite (get_put_current_hand _ _ (Hand.add_card hand c) Hcur') in Hrun.
    cbn [bind] in Hrun.
    assert (exists k, g' = BlackjackGame.set_current_hand_index
                             (BlackjackGame.put_current_hand
                                (BlackjackGame.set_deck g d')
                                (Hand.add_card hand c)) k) as [k ->].
    { destruct (Hand.is_bust (Hand.add_card hand c));
        injection Hrun as <-; eexists; [reflexivity|].
      now destruct g. }
    split; [reflexivity|]. exists hand. split; [exact Hnth|].
    right. right. left. exists (Hand.add_card hand c), c.
    repeat split.
  - (* stand *) now apply (Hsame _ Hrun).
  - (* double *)
    unfold BlackjackGame.double_down in Hrun. rewrite Hcur in Hrun.
    cbn [bind] in Hrun.
    destruct (Hand.can_double hand); cbn [negb] in Hrun;
      [| now apply (Hsame _ Hrun)].
    destruct (Deck.deal_card (BlackjackGame.deck g)) as [[c d']|e] eqn:Hdeal;
      [| destruct e; try discriminate Hrun; now apply (Hsame _ Hrun)].
    cbn [bind FullGameSimulator.except_ValueError] in Hrun.
    injection Hrun as <-.
    split; [reflexivity|]. exists hand. split; [exact Hnth|].
    right. right. left. eexists _, c.
    split; [reflexivity|]. repeat split.
  - (* split *)
    unfold BlackjackGame.split in Hrun. rewrite Hcur in Hrun.
    cbn [bind] in Hrun.
    destruct (Hand.can_split hand) eqn:Hcs; cbn [negb] in Hrun;
      [| now apply (Hsame _ Hrun)].
    destruct (_ >=? _); [now apply (Hsame _ Hrun)|].
    destruct (can_split_two_cards _ Hcs) as (first & second & Hcards).
    rewrite Hcards in Hrun. cbn [rev app] in Hrun.
    destruct (Deck.deal_card (BlackjackGame.deck g)) as [[c1 d1]|e] eqn:Hdeal1;
      [| destruct e; try discriminate Hrun; now apply (Hsame _ Hrun)].
    cbn [bind] in Hrun.
    destruct (Deck.deal_card d1) as [[c2 d2]|e] eqn:Hdeal2;
      [| destruct e; try discriminate Hrun; now apply (Hsame _ Hrun)].
    cbn [bind FullGameSimulator.except_ValueError] in Hrun.
    clear Hsame. injection Hrun as <-.
    split; [reflexivity|]. exists hand. split; [exact Hnth|].
    right. right. right.
    exists first, second, c1, c2, d1,
      (Hand.add_card (Hand.set_is_split (Hand.set_cards hand [first]) true) c1),
      (Hand.add_card
         (Hand.set_is_split
            (Hand.set_bet (Hand.add_card Hand.init second) (Hand.bet hand))
            true) c2).
    split.
    { unfold Hand.can_split in Hcs. apply andb_prop in Hcs.
      destruct Hcs as [_ Hns]. now destruct (Hand.is_split hand). }
    split; [exact Hcards|]. split; [reflexivity|]. split; [exact Hdeal2|].
    split; [reflexivity|]. split; [reflexivity|].
    split; [reflexivity|]. split; [reflexivity|].
    cbn [BlackjackGame.player_hands BlackjackGame.set_player_hands
         BlackjackGame.put_current_hand BlackjackGame.set_deck
         BlackjackGame.current_hand_index BlackjackGame.deck].
    exact (insert_after_set _ _ hand _ _ Hnth).
  - (* surrender *)
    unfold BlackjackGame.surrender in Hrun. rewrite Hcur in Hrun.
    cbn [bind] in Hrun.
    destruct (length (Hand.cards hand) =? 2)%nat; cbn [negb] in Hrun;
      [| now apply (Hsame _ Hrun)].
    cbn [FullGameSimulator.except_ValueError] in Hrun. injection Hrun as <-.
    split; [reflexivity|]. exists hand. split; [exact Hnth|].
    right. left. eexists. split; [reflexivity|]. repeat split.
  - (* anything else *) now apply (Hsame _ Hrun).
Qed.

Lemma length_list_set {A : Type} (l : list A) (i : nat) (x y : A) :
  nth_error l i = Some x -> length (list_set l i y) = length l.
Proof.
  intros Hn. destruct (nth_error_split_at _ _ _ Hn) as [Heq _].
  rewrite Heq at 2. unfold list_set. rewrite !length_app. reflexivity.
Qed.

Lemma all_split_list_set (l : list Hand.t) (i : nat) (x y : Hand.t) :
  nth_error l i = Some x -> all_split l -> Hand.is_split y = true ->
  all_split (list_set l i y).
Proof.
  unfold all_split, list_set. intros Hn Hall Hy.
  destruct (nth_error_split_at _ _ _ Hn) as [Heq _]. rewrite Heq in Hall.
  apply Forall_app in Hall. destruct Hall as [Ha Hb].
  apply Forall_app. split; [exact Ha|].
  constructor; [exact Hy | now inversion Hb].
Qed.

Lemma turn_keeps_round_shape (g g' : BlackjackGame.t) :
  turn_outcome g g' -> round_shape g -> round_shape g'.
Proof.
  intros (_ & hand & Hnth & Hcase) Hshape. unfold round_shape in *.
  destruct Hcase as [[Hp _] | [(h' & Hp & Hs & _) | [(h' & c & Hp & Hs & _) | Hsp]]].
  - now rewrite Hp.
  - rewrite Hp, (length_list_set _ _ _ _ Hnth).
    destruct Hshape as [H1 | [H2 Hall]]; [now left | right].
    split; [exact H2|]. apply (all_split_list_set _ _ hand); try assumption.
    rewrite Hs. unfold all_split in Hall. rewrite Forall_forall in Hall.
    apply Hall. now apply nth_error_In in Hnth.
  - rewrite Hp, (length_list_set _ _ _ _ Hnth).
    destruct Hshape as [H1 | [H2 Hall]]; [now left | right].
    split; [exact H2|]. apply (all_split_list_set _ _ hand); try assumption.
    rewrite Hs. unfold all_split in Hall. rewrite Forall_forall in Hall.
    apply Hall. now apply nth_error_In in Hnth.
  - destruct Hsp as (f & s & c1 & c2 & d1 & h1 & h2 & Hns & _ & _ & _ & _ & _
                     & Hs1 & Hs2 & Hp).
    destruct Hshape as [H1 | [_ Hall]].
    + right. rewrite Hp.
      destruct (BlackjackGame.player_hands g) as [|x [|y l]];
        try discriminate H1.
      destruct (BlackjackGame.current_hand_index g) as [|i];
        [| destruct i; discriminate Hnth].
      cbn. split; [reflexivity|]. repeat constructor; assumption.
    + exfalso. unfold all_split in Hall. rewrite Forall_forall in Hall.
      apply nth_error_In in Hnth. rewrite (Hall _ Hnth) in Hns. discriminate.
Qed.

Lemma player_turns_round_shape (inputs : list FullGameSimulator.Input) :
  forall g g', round_shape g -> player_turns inputs g = Ok g' -> round_shape g'.
Proof.
  induction inputs as [|input inputs IH]; intros g g' Hshape Hrun;
    cbn [player_turns] in Hrun.
  - now injection Hrun as <-.
  - destruct (FullGameSimulator.player_turn g input) as [g1|e] eqn:E;
      [| discriminate Hrun].
    cbn [bind] in Hrun. apply (IH g1); [| exact Hrun].
    apply (turn_keeps_round_shape g); [| exact Hshape].
    now apply (player_turn_cases _ input).
Qed.

Lemma deal_initial_cards_one_hand (rng : Deck.Shuffle) (g0 g1 : BlackjackGame.t) :
  BlackjackGame.deal_initial_cards (BlackjackGame.new_round rng g0) = Ok g1 ->
  exists h, BlackjackGame.player_hands g1 = [h].
Proof.
  unfold BlackjackGame.deal_initial_cards, BlackjackGame.new_round.
  cbn [BlackjackGame.player_hands BlackjackGame.deck].
  destruct (Deck.deal_card _) as [[c1 d1]|e]; [| discriminate]. cbn [bind].
  destruct (Deck.deal_card _) as [[c2 d2]|e]; [| discriminate]. cbn [bind].
  destruct (Deck.deal_card _) as [[c3 d3]|e]; [| discriminate]. cbn [bind].
  destruct (Deck.deal_card _) as [[c4 d4]|e]; [| discriminate]. cbn [bind].
  intros H. injection H as <-. eexists. reflexivity.
Qed.

(** X5. A round never has more than two player hands, whatever the player
    types and whatever [max_splits] allows: [split] flags both hands as
    split, and a flagged hand cannot be split. *)
Theorem never_more_than_two_hands (rng : Deck.Shuffle)
  (g0 g1 g' : BlackjackGame.t) (inputs : list FullGameSimulator.Input) :
  BlackjackGame.deal_initial_cards (BlackjackGame.new_round rng g0) = Ok g1 ->
  player_turns inputs g1 = Ok g' ->
  (length (BlackjackGame.player_hands g') <= 2)%nat.
Proof.
  intros Hdeal Hrun.
  destruct (deal_initial_cards_one_hand _ _ _ Hdeal) as [h Hh].
  assert (round_shape g1) as Hshape by (left; now rewrite Hh).
  destruct (player_turns_round_shape _ _ _ Hshape Hrun) as [H1 | [H2 _]]; lia.
Qed.

(** From an unshuffled six-deck shoe the player is dealt two Aces; they are
    split, and a second split of the first hand is refused. *)
Lemma never_more_than_two_hands_witness :
  let g0 := BlackjackGame.init no_shuffle GameRules.default in
  exists g1 g',
    BlackjackGame.deal_initial_cards (BlackjackGame.new_round no_shuffle g0)
    = Ok g1 /\
    player_turns [FullGameSimulator.IN_SP; FullGameSimulator.IN_SP] g1 = Ok g' /\
    length (BlackjackGame.player_hands g') = 2%nat /\
    (length (BlackjackGame.player_hands g') <= 2)%nat.
Proof.
  cbv zeta. eexists _, _.
  split; [vm_compute; reflexivity|].
  split; [vm_compute; reflexivity|].
  split; [reflexivity|].
  eapply (never_more_than_two_hands no_shuffle
            (BlackjackGame.init no_shuffle GameRules.default) _ _
            [FullGameSimulator.IN_SP; FullGameSimulator.IN_SP]);
    vm_compute; reflexivity.
Defined.

(** * No card is lost or made up *)

Lemma count_hands_set (l : list Hand.t) (i : nat) (x y : Hand.t) (c : Card.t) :
  nth_error l i = Some x ->
  (count_occ Card_eq_dec (hands_cards (list_set l i y)) c
   + count_occ Card_eq_dec (Hand.cards x) c
   = count_occ Card_eq_dec (hands_cards l) c
     + count_occ Card_eq_dec (Hand.cards y) c)%nat.
Proof.
  intros Hn. destruct (nth_error_split_at _ _ _ Hn) as [Heq _].
  rewrite Heq at 2. unfold list_set, hands_cards.
  rewrite !flat_map_app. cbn [flat_map]. rewrite !count_occ_app. lia.
Qed.

Lemma count_hands_split (l : list Hand.t) (i : nat) (x h1 h2 : Hand.t)
  (c : Card.t) :
  nth_error l i = Some x ->
  (count_occ Card_eq_dec
     (hands_cards (firstn i l ++ h1 :: h2 :: skipn (S i) l)) c
   + count_occ Card_eq_dec (Hand.cards x) c
   = count_occ Card_eq_dec (hands_cards l) c
     + count_occ Card_eq_dec (Hand.cards h1) c
     + count_occ Card_eq_dec (Hand.cards h2) c)%nat.
Proof.
  intros Hn. destruct (nth_error_split_at _ _ _ Hn) as [Heq _].
  rewrite Heq at 3. unfold hands_cards.
  rewrite !flat_map_app. cbn [flat_map]. rewrite !count_occ_app. lia.
Qed.

Lemma count_deal_card (d : Deck.t) (c0 : Card.t) (d' : Deck.t) (c : Card.t) :
  Deck.deal_card d = Ok (c0, d') ->
  count_occ Card_eq_dec (Deck.cards d) c
  = (count_occ Card_eq_dec (Deck.cards d') c
     + count_occ Card_eq_dec [c0] c)%nat.
Proof.
  intros H. apply deal_card_ok in H. destruct H as (-> & _).
  apply count_occ_app.
Qed.

(** X6. A pass of the player-turn loop neither loses nor makes up a card:
    shoe, player hands and dealer hand together hold the same cards before
    and after, whatever the player typed. *)
Theorem player_turn_conserves_cards (g : BlackjackGame.t)
  (input : FullGameSimulator.Input) (g' : BlackjackGame.t) :
  FullGameSimulator.player_turn g input = Ok g' ->
  Permutation (cards_in_play g) (cards_in_play g').
Proof.
  intros Hrun. apply player_turn_cases in Hrun.
  destruct Hrun as (Hdealer & hand & Hnth & Hcase).
  apply (Permutation_count_occ Card_eq_dec). intros c.
  unfold cards_in_play. rewrite !count_occ_app, Hdealer.
  destruct Hcase
    as [[Hp Hd] | [(h' & Hp & _ & Hc & Hd)
       | [(h' & c0 & Hp & _ & Hc & Hdeal) | Hsp]]].
  - now rewrite Hp, Hd.
  - rewrite Hp, Hd.
    pose proof (count_hands_set _ _ _ h' c Hnth) as Hset.
    rewrite Hc in Hset. lia.
  - rewrite Hp, (count_deal_card _ _ _ c Hdeal).
    pose proof (count_hands_set _ _ _ h' c Hnth) as Hset.
    rewrite Hc, count_occ_app in Hset. lia.
  - destruct Hsp as (f & s & c1 & c2 & d1 & h1 & h2 & _ & Hc & Hd1 & Hd2
                     & Hc1 & Hc2 & _ & _ & Hp).
    rewrite Hp, (count_deal_card _ _ _ c Hd1), (count_deal_card _ _ _ c Hd2).
    pose proof (count_hands_split _ _ _ h1 h2 c Hnth) as Hset.
    rewrite Hc, Hc1, Hc2 in Hset.
    change [f; s] with ([f] ++ [s]) in Hset.
    change [f; c1] with ([f] ++ [c1]) in Hset.
    change [s; c2] with ([s] ++ [c2]) in Hset.
    rewrite !count_occ_app in Hset. lia.
Qed.

(** A pair of 8s is split: the five cards of the table are still there. *)
Lemma player_turn_conserves_cards_witness :
  let g := game_at GameRules.default [card Two; card Three; card Four]
             [hand_with_bet [card Eight; card Eight] 100]
             (hand_of [card Ten; card Nine]) O in
  exists g',
    FullGameSimulator.player_turn g FullGameSimulator.IN_SP = Ok g' /\
    Permutation (cards_in_play g) (cards_in_play g').
Proof.
  cbv zeta. eexists. split; [reflexivity|].
  apply (player_turn_conserves_cards _ FullGameSimulator.IN_SP). reflexivity.
Defined.

(** * Starting a round *)

Lemma since_reset_cut (rng : Deck.Shuffle) (d : Deck.t) :
  since_reset rng d ->
  Deck.cut_card_position d = 13 * Z.of_nat (Deck.num_decks d).
Proof.
  induction 1 as [d | d c d' Hd IH Hdeal].
  - rewrite reset_cut_card. reflexivity.
  - apply deal_card_ok in Hdeal. destruct Hdeal as (_ & _ & -> & ->).
    exact IH.
Qed.

Lemma four_deals (d : Deck.t) :
  (4 <= length (Deck.cards d))%nat ->
  exists c1 d1 c2 d2 c3 d3 c4 d4,
    Deck.deal_card d = Ok (c1, d1) /\ Deck.deal_card d1 = Ok (c2, d2) /\
    Deck.deal_card d2 = Ok (c3, d3) /\ Deck.deal_card d3 = Ok (c4, d4) /\
    Deck.cards d = Deck.cards d4 ++ [c4; c3; c2; c1].
Proof.
  intros Hlen.
  destruct (deal_card_nonempty d) as (c1 & d1 & H1).
  { intros E. rewrite E in Hlen. cbn in Hlen. lia. }
  pose proof (deal_card_length _ _ _ H1) as L1.
  destruct (deal_card_nonempty d1) as (c2 & d2 & H2).
  { intros E. rewrite E in L1. cbn in L1. lia. }
  pose proof (deal_card_length _ _ _ H2) as L2.
  destruct (deal_card_nonempty d2) as (c3 & d3 & H3).
  { intros E. rewrite E in L2. cbn in L2. lia. }
  pose proof (deal_card_length _ _ _ H3) as L3.
  destruct (deal_card_nonempty d3) as (c4 & d4 & H4).
  { intros E. rewrite E in L3. cbn in L3. lia. }
  exists c1, d1, c2, d2, c3, d3, c4, d4.
  repeat (split; [assumption|]).
  apply deal_card_ok in H1, H2, H3, H4.
  destruct H1 as (-> & _), H2 as (-> & _), H3 as (-> & _), H4 as (-> & _).
  rewrite <- !app_assoc. reflexivity.
Qed.

(** X7. After [new_round] on a shoe of at least one deck that has only been
    dealt from since its last reset, [deal_initial_cards] never meets an
    empty shoe: the last four cards of the shoe go, in turn, to the player,
    the dealer, the player and the dealer. *)
Theorem initial_deal_after_new_round (rng : Deck.Shuffle) (g : BlackjackGame.t) :
  since_reset rng (BlackjackGame.deck g) ->
  (1 <= Deck.num_decks (BlackjackGame.deck g))%nat ->
  exists g' c1 c2 c3 c4 rest,
    Deck.cards (BlackjackGame.deck (BlackjackGame.new_round rng g))
    = rest ++ [c4; c3; c2; c1] /\
    BlackjackGame.deal_initial_cards (BlackjackGame.new_round rng g) = Ok g' /\
    map Hand.cards (BlackjackGame.player_hands g') = [[c1; c3]] /\
    Hand.cards (BlackjackGame.dealer_hand g') = [c2; c4] /\
    Deck.cards (BlackjackGame.deck g') = rest /\
    BlackjackGame.current_hand_index g' = O.
Proof.
  intros Hsince Hn.
  assert (4 <= length (Deck.cards
                         (BlackjackGame.deck (BlackjackGame.new_round rng g))))%nat
    as Hlen.
  { unfold BlackjackGame.new_round. cbn [BlackjackGame.deck].
    destruct (Deck.needs_shuffle (BlackjackGame.deck g)) eqn:E.
    - pose proof (reset_cards_remaining rng (BlackjackGame.deck g)) as Hr.
      unfold Deck.cards_remaining in Hr. lia.
    - unfold Deck.needs_shuffle in E. apply Z.leb_gt in E.
      rewrite (since_reset_cut _ _ Hsince) in E. lia. }
  destruct (four_deals _ Hlen)
    as (c1 & d1 & c2 & d2 & c3 & d3 & c4 & d4 & H1 & H2 & H3 & H4 & Hcards).
  eexists _, c1, c2, c3, c4, (Deck.cards d4).
  split; [exact Hcards|].
  unfold BlackjackGame.deal_initial_cards.
  change (BlackjackGame.player_hands (BlackjackGame.new_round rng g))
    with [Hand.init].
  cbv iota. rewrite H1. cbn [bind]. rewrite H2. cbn [bind]. rewrite H3.
  cbn [bind]. rewrite H4. cbn [bind].
  split; [reflexivity|]. repeat split.
Qed.

(** A new six-deck game: the first round's four cards are dealt. *)
Lemma initial_deal_after_new_round_witness :
  let g := BlackjackGame.init no_shuffle GameRules.default in
  exists g' c1 c2 c3 c4 rest,
    Deck.cards (BlackjackGame.deck (BlackjackGame.new_round no_shuffle g))
    = rest ++ [c4; c3; c2; c1] /\
    BlackjackGame.deal_initial_cards (BlackjackGame.new_round no_shuffle g)
    = Ok g' /\
    map Hand.cards (BlackjackGame.player_hands g') = [[c1; c3]] /\
    Hand.cards (BlackjackGame.dealer_hand g') = [c2; c4] /\
    Deck.cards (BlackjackGame.deck g') = rest /\
    BlackjackGame.current_hand_index g' = O.
Proof.
  cbv zeta.
  apply (initial_deal_after_new_round no_shuffle
           (BlackjackGame.init no_shuffle GameRules.default)).
  - apply (after_reset no_shuffle (Deck.mk 6 [] [] 0)).
  - cbn. lia.
Defined.

(** * Settlement amounts *)

(** X8. With a bet that is not negative and a blackjack payout of at least
    1, a hand never loses more than its bet and never wins more than
    [bet * blackjack_payout]. *)
Theorem resolve_hand_bounds (g : BlackjackGame.t) (hand : Hand.t) :
  (0 <= Hand.bet hand)%Q ->
  (1 <= GameRules.blackjack_payout (BlackjackGame.rules g))%Q ->
  (- Hand.bet hand <= BlackjackGame.resolve_hand g hand)%Q /\
  (BlackjackGame.resolve_hand g hand
   <= Hand.bet hand * GameRules.blackjack_payout (BlackjackGame.rules g))%Q.
Proof.
  intros Hbet Hpay. unfold BlackjackGame.resolve_hand.
  set (b := Hand.bet hand) in *.
  set (p := GameRules.blackjack_payout (BlackjackGame.rules g)) in *.
  assert (b <= b * p)%Q as Hbp by nra.
  destruct (Hand.is_surrendered hand); [split; lra|].
  destruct (_ >? _); [split; lra|].
  destruct (Hand.is_blackjack hand).
  { destruct (Hand.is_blackjack _); split; lra. }
  destruct (_ >? _); [split; lra|].
  destruct (Hand.is_blackjack _).
  { destruct (Hand.is_insured hand); split; lra. }
  destruct (_ >? _); [split; lra|].
  destruct (_ <? _); split; lra.
Qed.

Lemma resolve_hand_bounds_witness :
  let hand := hand_with_bet [card Ace; card King] 100 in
  let g := showdown hand (hand_of [card Ten; card Eight]) in
  (- Hand.bet hand <= BlackjackGame.resolve_hand g hand)%Q /\
  (BlackjackGame.resolve_hand g hand
   <= Hand.bet hand * GameRules.blackjack_payout (BlackjackGame.rules g))%Q.
Proof.
  cbv zeta.
  apply (resolve_hand_bounds
           (showdown (hand_with_bet [card Ace; card King] 100)
              (hand_of [card Ten; card Eight]))
           (hand_with_bet [card Ace; card King] 100));
    vm_compute; discriminate.
Defined.

(** X9. Insurance costs nothing in [resolve_hand]: an insured hand is
    settled at the same amount as the uninsured one unless the dealer has a
    blackjack, and then at no less. *)
Theorem insurance_never_lowers_settlement (g : BlackjackGame.t) (hand : Hand.t) :
  (0 <= Hand.bet hand)%Q ->
  (BlackjackGame.resolve_hand g (Hand.set_is_insured hand false)
   <= BlackjackGame.resolve_hand g (Hand.set_is_insured hand true))%Q /\
  (Hand.is_blackjack (BlackjackGame.dealer_hand g) = false ->
   BlackjackGame.resolve_hand g (Hand.set_is_insured hand true)
   = BlackjackGame.resolve_hand g (Hand.set_is_insured hand false)).
Proof.
  intros Hbet. unfold BlackjackGame.resolve_hand.
  change (Hand.value (Hand.set_is_insured hand true)) with (Hand.value hand).
  change (Hand.value (Hand.set_is_insured hand false)) with (Hand.value hand).
  change (Hand.is_blackjack (Hand.set_is_insured hand true))
    with (Hand.is_blackjack hand).
  change (Hand.is_blackjack (Hand.set_is_insured hand false))
    with (Hand.is_blackjack hand).
  cbn [Hand.set_is_insured Hand.is_surrendered Hand.bet Hand.is_insured].
  set (b := Hand.bet hand) in *.
  split.
  - destruct (Hand.is_surrendered hand); [lra|].
    destruct (_ >? _); [lra|].
    destruct (Hand.is_blackjack hand); [lra|].
    destruct (_ >? _); [lra|].
    destruct (Hand.is_blackjack _); lra.
  - intros ->. reflexivity.
Qed.

Lemma insurance_never_lowers_settlement_witness :
  let hand := hand_with_bet [card Ten; card Nine] 100 in
  let g := showdown hand (hand_of [card Ace; card King]) in
  (BlackjackGame.resolve_hand g (Hand.set_is_insured hand false)
   <= BlackjackGame.resolve_hand g (Hand.set_is_insured hand true))%Q.
Proof.
  cbv zeta.
  apply (insurance_never_lowers_settlement
           (showdown (hand_with_bet [card Ten; card Nine] 100)
              (hand_of [card Ace; card King]))
           (hand_with_bet [card Ten; card Nine] 100)).
  vm_compute. discriminate.
Defined.

(** * Basic strategy: what [get_action] can answer *)

Lemma dict_get_In {K V : Type} (eqb : K -> K -> bool) (k : K)
  (d : list (K * V)) (v : V) :
  dict_get eqb k d = Some v -> exists k', In (k', v) d.
Proof.
  induction d as [|[k0 v0] d IH]; cbn [dict_get]; [discriminate|].
  destruct (eqb k k0).
  - intros H. injection H as ->. exists k0. now left.
  - intros H. destruct (IH H) as [k' Hin]. exists k'. now right.
Qed.

Lemma lookup2_cases {K : Type} (eqb : K -> K -> bool)
  (table : list (K * list (Z * Action))) (k1 : K) (k2 : Z) (default : Action) :
  BasicStrategy.lookup2 eqb table k1 k2 default = default
  \/ In (BasicStrategy.lookup2 eqb table k1 k2 default) (table_actions table).
Proof.
  unfold BasicStrategy.lookup2.
  destruct (dict_get eqb k1 table) as [r|] eqn:E1; [| now left].
  destruct (dict_get Z.eqb k2 r) as [a|] eqn:E2; [| now left].
  right. destruct (dict_get_In _ _ _ _ E1) as [k Hk].
  destruct (dict_get_In _ _ _ _ E2) as [k' Hk'].
  unfold table_actions. apply in_flat_map. exists (k, r). split; [exact Hk|].
  cbn [snd]. apply in_map_iff. exists (k', a). now split.
Qed.

Lemma hard_and_soft_entries (self : BasicStrategy.t) (pv dv : Z) :
  table_entry
    (BasicStrategy.lookup2 Z.eqb (BasicStrategy.hard_strategy self) pv dv STAND)
  = true /\
  table_entry
    (BasicStrategy.lookup2 Z.eqb (BasicStrategy.soft_strategy self) pv dv STAND)
  = true.
Proof.
  assert (forall t, forallb table_entry (table_actions t) = true ->
            table_entry (BasicStrategy.lookup2 Z.eqb t pv dv STAND) = true)
    as Hgen.
  { intros t Hall. destruct (lookup2_cases Z.eqb t pv dv STAND) as [-> | Hin];
      [reflexivity|].
    rewrite forallb_forall in Hall. now apply Hall. }
  split; apply Hgen; destruct self as [[] [] []]; reflexivity.
Qed.

Lemma surrender_match_needs_rule (self : BasicStrategy.t) (pv dv : Z) :
  BasicStrategy.surrender_match self pv dv = true ->
  BasicStrategy.can_surrender self = true /\ 15 <= pv <= 17.
Proof.
  unfold BasicStrategy.surrender_match, BasicStrategy.surrender_strategy.
  cbn [dict_get].
  destruct (Z.eqb_spec pv 15); [| destruct (Z.eqb_spec pv 16);
    [| destruct (Z.eqb_spec pv 17); [| discriminate]]];
    destruct (BasicStrategy.can_surrender self); cbn; try discriminate;
    intros _; split; (reflexivity || lia).
Qed.

(** The answer is never one of the double-or codes of the tables. *)
Lemma get_action_is_basic (self : BasicStrategy.t) (hand : Hand.t)
  (up : Card.t) (can_double can_split can_surrender : bool) :
  basic_action
    (BasicStrategy.get_action self hand up can_double can_split can_surrender).
Proof.
  unfold BasicStrategy.get_action, basic_action.
  destruct (_ && _ && _ && _); [tauto|].
  destruct (_ && _ && _); [tauto|].
  destruct (hard_and_soft_entries self (Hand.value hand) (Card.value up))
    as [Hhard Hsoft].
  destruct (Hand.is_soft hand && (Hand.value hand <=? 21));
    [destruct (BasicStrategy.lookup2 _ (BasicStrategy.soft_strategy self) _ _ _)
    | destruct (BasicStrategy.lookup2 _ (BasicStrategy.hard_strategy self) _ _ _)];
    try discriminate; destruct can_double; tauto.
Qed.

(** X10. [get_action] always answers with one of Hit, Stand, Double, Split
    and Surrender, and only with what it was allowed: Double needs
    [can_double]; Split needs [can_split] and a pair; Surrender needs
    [can_surrender], the strategy's own surrender rule, exactly two cards
    and a hand that [is_soft()] rejects. *)
Theorem get_action_respects_permissions (self : BasicStrategy.t)
  (hand : Hand.t) (up : Card.t) (can_double can_split can_surrender : bool) :
  let a :=
    BasicStrategy.get_action self hand up can_double can_split can_surrender in
  basic_action a /\
  (a = DOUBLE -> can_double = true) /\
  (a = SPLIT -> can_split = true /\ Hand.is_pair hand = true) /\
  (a = SURRENDER ->
   can_surrender = true /\ BasicStrategy.can_surrender self = true /\
   length (Hand.cards hand) = 2%nat /\ Hand.is_soft hand = false).
Proof.
  cbv zeta. split; [apply get_action_is_basic|].
  unfold BasicStrategy.get_action.
  destruct (can_surrender && (length (Hand.cards hand) =? 2)%nat
            && negb (Hand.is_soft hand)
            && BasicStrategy.surrender_match self (Hand.value hand)
                 (Card.value up)) eqn:Esur.
  { split; [discriminate|]. split; [discriminate|]. intros _.
    apply andb_prop in Esur. destruct Esur as [Esur Hm].
    apply andb_prop in Esur. destruct Esur as [Esur Hs].
    apply andb_prop in Esur. destruct Esur as [Hc Hl].
    apply surrender_match_needs_rule in Hm. destruct Hm as [Hm _].
    apply Nat.eqb_eq in Hl. apply negb_true_iff in Hs. tauto. }
  destruct (can_split && Hand.is_pair hand
            && BasicStrategy.pair_split self hand (Card.value up)) eqn:Esp.
  { split; [discriminate|]. split; [| discriminate]. intros _.
    apply andb_prop in Esp. destruct Esp as [Esp _].
    apply andb_prop in Esp. tauto. }
  destruct (hard_and_soft_entries self (Hand.value hand) (Card.value up))
    as [Hhard Hsoft].
  destruct (Hand.is_soft hand && (Hand.value hand <=? 21));
    [destruct (BasicStrategy.lookup2 _ (BasicStrategy.soft_strategy self) _ _ _)
    | destruct (BasicStrategy.lookup2 _ (BasicStrategy.hard_strategy self) _ _ _)];
    try discriminate; destruct can_double;
    (split; [intros; (reflexivity || discriminate) |]);
    (split; discriminate).
Qed.

(** X11. [is_correct_action] accepts exactly the action [get_action]
    returns: since that is never a double-or code, its two lenient branches
    are never taken. *)
Theorem is_correct_action_iff (self : BasicStrategy.t) (hand : Hand.t)
  (up : Card.t) (player_action : Action)
  (can_double can_split can_surrender : bool) :
  BasicStrategy.is_correct_action self hand up player_action can_double
    can_split can_surrender = true
  <-> player_action
      = BasicStrategy.get_action self hand up can_double can_split
          can_surrender.
Proof.
  unfold BasicStrategy.is_correct_action.
  pose proof (get_action_is_basic self hand up can_double can_split
                can_surrender) as Hb.
  destruct (BasicStrategy.get_action self hand up can_double can_split
              can_surrender);
    unfold basic_action in Hb;
    try (exfalso; destruct Hb as [H | [H | [H | [H | H]]]]; discriminate H);
    destruct player_action; cbn; split; intros H;
    reflexivity || discriminate H.
Qed.

Lemma hard_strategy_keys (self : BasicStrategy.t) (pv : Z) :
  pv < 5 \/ 21 < pv ->
  dict_get Z.eqb pv (BasicStrategy.hard_strategy self) = None.
Proof.
  intros Hout. unfold BasicStrategy.hard_strategy. cbn [dict_get].
  repeat match goal with
         | |- context [Z.eqb pv ?k] => destruct (Z.eqb_spec pv k); [lia|]
         end.
  reflexivity.
Qed.

Lemma lookup_all (a : Action) (dv : Z) :
  match dict_get Z.eqb dv (BasicStrategy.all a) with
  | Some x => x
  | None => a
  end = a.
Proof.
  unfold BasicStrategy.all, BasicStrategy.row. cbn [dict_get].
  repeat match goal with
         | |- context [Z.eqb dv ?k] => destruct (Z.eqb dv k); [reflexivity|]
         end.
  reflexivity.
Qed.

(** Hard totals from 17 up, bust totals included, are in or above the rows
    that only say Stand, whatever the dealer shows. *)
Lemma hard_lookup_17_up (self : BasicStrategy.t) (pv dv : Z) :
  17 <= pv ->
  BasicStrategy.lookup2 Z.eqb (BasicStrategy.hard_strategy self) pv dv STAND
  = STAND.
Proof.
  intros Hpv. unfold BasicStrategy.lookup2.
  destruct (Z_le_gt_dec pv 21) as [Hle | Hgt].
  - assert (pv = 17 \/ pv = 18 \/ pv = 19 \/ pv = 20 \/ pv = 21) as Hcase by lia.
    destruct Hcase as [-> | [-> | [-> | [-> | ->]]]];
      cbn [BasicStrategy.hard_strategy dict_get Z.eqb Pos.eqb];
      apply lookup_all.
  - rewrite hard_strategy_keys; [reflexivity | lia].
Qed.

Lemma pair_not_bust (hand : Hand.t) :
  Hand.is_pair hand = true -> Hand.value hand <= 21.
Proof.
  unfold Hand.is_pair. intros Hp.
  destruct (value_cases hand) as [_ [Hle | Heq]]; [exact Hle|].
  rewrite Heq.
  destruct (Hand.cards hand) as [|c0 [|c1 [|c2 l]]]; try discriminate Hp.
  cbn [hard_total].
  pose proof (hard_value_le_10 c0). pose proof (hard_value_le_10 c1). lia.
Qed.

(** X12. A hand that [is_soft()] rejects with a total of 17 or more is never
    hit or doubled: the answer is Stand, unless the pair or the surrender
    table takes the hand first; a bust hand always gets Stand. *)
Theorem hard_17_or_more_never_hits (self : BasicStrategy.t) (hand : Hand.t)
  (up : Card.t) (can_double can_split can_surrender : bool) :
  Hand.is_soft hand = false -> 17 <= Hand.value hand ->
  let a :=
    BasicStrategy.get_action self hand up can_double can_split can_surrender in
  (a = STAND \/ a = SPLIT \/ a = SURRENDER) /\
  (can_split = false -> can_surrender = false -> a = STAND) /\
  (21 < Hand.value hand -> a = STAND).
Proof.
  intros Hsoft Hv. cbv zeta. unfold BasicStrategy.get_action.
  rewrite Hsoft. cbn [negb andb]. rewrite (hard_lookup_17_up self _ _ Hv).
  destruct (can_surrender && (length (Hand.cards hand) =? 2)%nat && true
            && BasicStrategy.surrender_match self (Hand.value hand)
                 (Card.value up)) eqn:Esur.
  { split; [tauto|]. split.
    - intros _ ->. discriminate Esur.
    - intros Hbust. apply andb_prop in Esur. destruct Esur as [_ Hm].
      apply surrender_match_needs_rule in Hm. lia. }
  destruct (can_split && Hand.is_pair hand
            && BasicStrategy.pair_split self hand (Card.value up)) eqn:Esp.
  { split; [tauto|]. split.
    - intros ->. discriminate Esp.
    - intros Hbust. apply andb_prop in Esp. destruct Esp as [Esp _].
      apply andb_prop in Esp. destruct Esp as [_ Hp].
      apply pair_not_bust in Hp. lia. }
  split; [tauto|]. split; reflexivity.
Qed.

(** A hard 20 of three cards against a 6. *)
Lemma hard_17_or_more_never_hits_witness :
  BasicStrategy.get_action BasicStrategy.default
    (hand_of [card Ten; card Seven; card Three]) (card Six) true false false
  = STAND.
Proof.
  assert (17 <= Hand.value (hand_of [card Ten; card Seven; card Three]))
    as Hv by (vm_compute; discriminate).
  destruct (hard_17_or_more_never_hits BasicStrategy.default
              (hand_of [card Ten; card Seven; card Three]) (card Six)
              true false false eq_refl Hv) as (_ & Hstand & _).
  apply Hstand; reflexivity.
Defined.

Lemma is_soft_value_ge_10 (h : Hand.t) :
  Hand.is_soft h = true -> 10 <= Hand.value h.
Proof.
  rewrite is_soft_eq. intros E. apply andb_prop in E. destruct E as [Ha Ht].
  apply Nat.ltb_lt in Ha. apply Z.leb_le in Ht.
  rewrite value_eq, adjust_for_aces_no_bust by exact Ht.
  pose proof (hard_total_nonneg (Hand.cards h)). lia.
Qed.

(** X13. A total below 5 is missing from the hard table, so such a hand is
    never hit: the answer is Stand unless the pair table says Split. A pair
    of 2s that is not split (no splitting allowed, or an upcard the pair
    table answers with Hit) gets Stand. *)
Theorem total_below_table_never_hits (self : BasicStrategy.t) (hand : Hand.t)
  (up : Card.t) (can_double can_split can_surrender : bool) :
  Hand.value hand < 5 ->
  let a :=
    BasicStrategy.get_action self hand up can_double can_split can_surrender in
  (a = STAND \/ a = SPLIT) /\
  (can_split = false -> a = STAND) /\
  (BasicStrategy.pair_split self hand (Card.value up) = false -> a = STAND).
Proof.
  intros Hv. cbv zeta. unfold BasicStrategy.get_action.
  assert (Hand.is_soft hand = false) as Hsoft.
  { destruct (Hand.is_soft hand) eqn:E; [| reflexivity].
    apply is_soft_value_ge_10 in E. lia. }
  rewrite Hsoft. cbn [negb andb].
  assert (BasicStrategy.surrender_match self (Hand.value hand) (Card.value up)
          = false) as Hsur.
  { destruct (BasicStrategy.surrender_match _ _ _) eqn:E; [| reflexivity].
    apply surrender_match_needs_rule in E. lia. }
  rewrite Hsur, andb_false_r.
  assert (BasicStrategy.lookup2 Z.eqb (BasicStrategy.hard_strategy self)
            (Hand.value hand) (Card.value up) STAND = STAND) as Hlook.
  { unfold BasicStrategy.lookup2.
    rewrite hard_strategy_keys; [reflexivity | lia]. }
  rewrite Hlook.
  destruct (can_split && Hand.is_pair hand
            && BasicStrategy.pair_split self hand (Card.value up)) eqn:Esp.
  - split; [tauto|]. split.
    + intros ->. discriminate Esp.
    + intros Hps. rewrite Hps, andb_false_r in Esp. discriminate Esp.
  - split; [tauto|]. split; reflexivity.
Qed.

(** A pair of 2s against an 8, splitting allowed: Stand. *)
Lemma total_below_table_never_hits_witness :
  BasicStrategy.get_action BasicStrategy.default (pair_of Two HEARTS CLUBS)
    (card Eight) true true true
  = STAND.
Proof.
  assert (Hand.value (pair_of Two HEARTS CLUBS) < 5) as Hv by reflexivity.
  destruct (total_below_table_never_hits BasicStrategy.default
              (pair_of Two HEARTS CLUBS) (card Eight) true true true Hv)
    as (_ & _ & Hstand).
  apply Hstand. reflexivity.
Defined.

(** X14. For a pair of any rank but 8, with splitting allowed, [get_action]
    answers Split exactly when the pair table has Split for that rank and
    upcard, under every rule setting and whatever else is allowed. *)
Theorem pair_table_decides_split (self : BasicStrategy.t) (r : Rank)
  (s1 s2 : Suit) (up : Card.t) (can_double can_surrender : bool) :
  r <> Eight ->
  BasicStrategy.get_action self (pair_of r s1 s2) up can_double true
    can_surrender = SPLIT
  <-> BasicStrategy.lookup2 Rank_eqb (BasicStrategy.pair_strategy self) r
        (Card.value up) HIT = SPLIT.
Proof.
  intros Hr. destruct up as [ur us].
  destruct self as [h17 sur das].
  destruct r; try (exfalso; apply Hr; reflexivity);
    destruct ur, h17, sur, das, can_double, can_surrender;
    split; intros H; reflexivity || discriminate H.
Qed.

(** A pair of Aces against a ten: Split. *)
Lemma pair_table_decides_split_witness :
  BasicStrategy.get_action BasicStrategy.default (pair_of Ace HEARTS CLUBS)
    (card Ten) true true true
  = SPLIT.
Proof.
  apply (pair_table_decides_split BasicStrategy.default Ace HEARTS CLUBS
           (card Ten) true true);
    [discriminate | reflexivity].
Defined.

(** * The running count *)

Lemma hi_lo_sum_app (l1 l2 : list Card.t) :
  hi_lo_sum (l1 ++ l2) = hi_lo_sum l1 + hi_lo_sum l2.
Proof.
  induction l1 as [|c l1 IH]; cbn [app hi_lo_sum fold_right]; [reflexivity|].
  fold (hi_lo_sum (l1 ++ l2)). fold (hi_lo_sum l1). rewrite IH. lia.
Qed.

Lemma hi_lo_sum_perm (l1 l2 : list Card.t) :
  Permutation l1 l2 -> hi_lo_sum l1 = hi_lo_sum l2.
Proof.
  induction 1 as [| x l l' _ IH | x y l | l l' l'' _ IH1 _ IH2];
    cbn [hi_lo_sum fold_right].
  - reflexivity.
  - fold (hi_lo_sum l). fold (hi_lo_sum l'). now rewrite IH.
  - lia.
  - now rewrite IH1.
Qed.

Lemma hi_lo_sum_fresh (n : nat) : hi_lo_sum (Deck.fresh_cards n) = 0.
Proof.
  induction n as [|n IH]; cbn [Deck.fresh_cards]; [reflexivity|].
  rewrite hi_lo_sum_app, IH. reflexivity.
Qed.

Lemma count_cards_from_acc (cards : list Card.t) :
  forall total self,
    fold_left HiLoCounter.count_cards_step cards (total, self)
    = (total + hi_lo_sum cards,
       HiLoCounter.mk
         (HiLoCounter.running_count self + hi_lo_sum cards)
         (HiLoCounter.cards_seen self + Z.of_nat (length cards))
         (HiLoCounter.starting_decks self)).
Proof.
  induction cards as [|c cards IH]; intros total self.
  - cbn [fold_left hi_lo_sum fold_right length]. destruct self.
    cbn. f_equal; [lia | f_equal; lia].
  - cbn [fold_left]. unfold HiLoCounter.count_cards_step at 2.
    unfold HiLoCounter.count_card. rewrite IH.
    cbn [HiLoCounter.running_count HiLoCounter.cards_seen
         HiLoCounter.starting_decks hi_lo_sum fold_right].
    fold (hi_lo_sum cards).
    f_equal; [lia | f_equal; try lia].
    change (length (c :: cards)) with (S (length cards)). lia.
Qed.

(** X15. [count_cards] returns the sum of the Hi-Lo values of the cards,
    adds it to the running count and adds their number to [cards_seen]; the
    order in which the cards are counted does not matter. *)
Theorem count_cards_sums (self : HiLoCounter.t) (cards : list Card.t) :
  HiLoCounter.count_cards self cards
  = (hi_lo_sum cards,
     HiLoCounter.mk
       (HiLoCounter.running_count self + hi_lo_sum cards)
       (HiLoCounter.cards_seen self + Z.of_nat (length cards))
       (HiLoCounter.starting_decks self)) /\
  forall cards',
    Permutation cards cards' ->
    HiLoCounter.count_cards self cards' = HiLoCounter.count_cards self cards.
Proof.
  unfold HiLoCounter.count_cards. split.
  - rewrite count_cards_from_acc. reflexivity.
  - intros cards' Hperm. rewrite !count_cards_from_acc.
    rewrite (hi_lo_sum_perm _ _ Hperm), (Permutation_length Hperm).
    reflexivity.
Qed.

(** X16. Hi-Lo is balanced over the shoe: between two resets the Hi-Lo sum
    of the discards is minus that of the live cards, so a counter that has
    counted every dealt card since it was reset holds minus the Hi-Lo sum
    of what is left, and 0 once the shoe is dealt out. *)
Theorem running_count_mirrors_shoe (rng : Deck.Shuffle) (d : Deck.t) :
  since_reset rng d ->
  hi_lo_sum (Deck.discards d) = - hi_lo_sum (Deck.cards d) /\
  HiLoCounter.running_count
    (snd (HiLoCounter.count_cards HiLoCounter.init (Deck.discards d)))
  = - hi_lo_sum (Deck.cards d) /\
  (Deck.cards d = [] ->
   HiLoCounter.running_count
     (snd (HiLoCounter.count_cards HiLoCounter.init (Deck.discards d))) = 0).
Proof.
  intros Hd.
  assert (hi_lo_sum (Deck.discards d) = - hi_lo_sum (Deck.cards d)) as Hbal.
  { induction Hd as [d | d c d' Hd IH Hdeal].
    - unfold Deck.reset. cbn [Deck.cards Deck.discards].
      rewrite <- (hi_lo_sum_perm _ _ (Deck.shuffle_perm rng _)).
      rewrite hi_lo_sum_fresh. reflexivity.
    - apply deal_card_ok in Hdeal. destruct Hdeal as (Hc & Hdis & _).
      rewrite Hc, hi_lo_sum_app in IH. rewrite Hdis, hi_lo_sum_app. lia. }
  split; [exact Hbal|].
  unfold HiLoCounter.count_cards. rewrite count_cards_from_acc.
  cbn [snd HiLoCounter.running_count HiLoCounter.init].
  split; [lia|]. intros E. rewrite Hbal, E. reflexivity.
Qed.

(** Two cards off a fresh single deck in built order: the Aces of spades and
    clubs, counted -2, against +2 left in the shoe. *)
Lemma running_count_mirrors_shoe_witness :
  exists cs d,
    deal_cards 2 (Deck.init no_shuffle 1) = Ok (cs, d) /\
    HiLoCounter.running_count
      (snd (HiLoCounter.count_cards HiLoCounter.init (Deck.discards d)))
    = - hi_lo_sum (Deck.cards d) /\
    hi_lo_sum (Deck.cards d) = 2.
Proof.
  eexists _, _. split; [vm_compute; reflexivity|].
  split; [| reflexivity].
  apply (running_count_mirrors_shoe no_shuffle).
  eapply after_deal;
    [eapply after_deal; [apply (after_reset no_shuffle (Deck.mk 1 [] [] 0))|] |];
    vm_compute; reflexivity.
Defined.

(** * Truncated true counts *)

(** [int(x)] reaches a positive [k] exactly when [x] does. *)
Lemma py_int_ge_pos (x : Q) (k : Z) :
  0 < k -> (k <= py_int x <-> (inject_Z k <= x)%Q).
Proof.
  intros Hk. destruct x as [n d]. unfold py_int, Qle, inject_Z.
  cbn [Qnum Qden]. Z.quot_rem_to_equations. nia.
Qed.

(** [int(x)] reaches a [k] that is not positive as soon as [x] is above
    [k - 1]: truncation is towards zero. *)
Lemma py_int_ge_nonpos (x : Q) (k : Z) :
  k <= 0 -> (k <= py_int x <-> (inject_Z (k - 1) < x)%Q).
Proof.
  intros Hk. destruct x as [n d]. unfold py_int, Qlt, inject_Z.
  cbn [Qnum Qden]. Z.quot_rem_to_equations. nia.
Qed.

Lemma py_int_mono (x y : Q) : (x <= y)%Q -> py_int x <= py_int y.
Proof.
  intros Hxy. destruct (Z_le_gt_dec (py_int x) (py_int y)) as [|Hgt];
    [assumption|].
  exfalso. destruct (Z_lt_le_dec 0 (py_int x)) as [Hpos | Hnp].
  - assert (py_int x <= py_int y); [| lia].
    apply py_int_ge_pos; [exact Hpos|].
    apply Qle_trans with x; [| exact Hxy].
    apply (py_int_ge_pos x (py_int x) Hpos). lia.
  - assert (py_int x <= py_int y); [| lia].
    apply py_int_ge_nonpos; [exact Hnp|].
    apply Qlt_le_trans with x; [| exact Hxy].
    apply (py_int_ge_nonpos x (py_int x) Hnp). lia.
Qed.

Lemma betting_index_cases (tc : Q) :
  (py_int tc <= 1 -> HiLoCounter.get_betting_index tc = "MIN_BET"%string) /\
  (py_int tc = 2 -> HiLoCounter.get_betting_index tc = "2_UNITS"%string) /\
  (py_int tc = 3 -> HiLoCounter.get_betting_index tc = "4_UNITS"%string) /\
  (py_int tc = 4 -> HiLoCounter.get_betting_index tc = "6_UNITS"%string) /\
  (5 <= py_int tc -> HiLoCounter.get_betting_index tc = "8_UNITS"%string).
Proof.
  unfold HiLoCounter.get_betting_index.
  destruct (Z.leb_spec (py_int tc) 0), (Z.eqb_spec (py_int tc) 1),
    (Z.eqb_spec (py_int tc) 2), (Z.eqb_spec (py_int tc) 3),
    (Z.eqb_spec (py_int tc) 4), (Z.geb_spec (py_int tc) 5);
    try lia; repeat split; intros; reflexivity || lia.
Qed.

(** A true count in [k, k+1), [k] positive, truncates to [k]. *)
Lemma py_int_between (x : Q) (k : Z) :
  0 < k -> (inject_Z k <= x)%Q -> (x < inject_Z (k + 1))%Q -> py_int x = k.
Proof.
  intros Hk Hlo Hhi.
  apply (py_int_ge_pos x k Hk) in Hlo.
  assert (~ k + 1 <= py_int x) as Hnot.
  { intros H. apply (py_int_ge_pos x (k + 1)) in H; [| lia].
    exact (Qlt_not_le _ _ Hhi H). }
  lia.
Qed.

(** X17. The betting index in terms of the true count itself: the minimum
    bet below 2, then 2, 4 and 6 units on [2,3), [3,4) and [4,5), and 8
    units from 5 up. *)
Theorem betting_index_thresholds (tc : Q) :
  ((tc < 2)%Q -> HiLoCounter.get_betting_index tc = "MIN_BET"%string) /\
  ((2 <= tc)%Q -> (tc < 3)%Q ->
   HiLoCounter.get_betting_index tc = "2_UNITS"%string) /\
  ((3 <= tc)%Q -> (tc < 4)%Q ->
   HiLoCounter.get_betting_index tc = "4_UNITS"%string) /\
  ((4 <= tc)%Q -> (tc < 5)%Q ->
   HiLoCounter.get_betting_index tc = "6_UNITS"%string) /\
  ((5 <= tc)%Q -> HiLoCounter.get_betting_index tc = "8_UNITS"%string).
Proof.
  destruct (betting_index_cases tc) as (Hmin & H2 & H3 & H4 & H5).
  split; [| split; [| split; [| split]]].
  - intros Hlt. apply Hmin.
    assert (~ 2 <= py_int tc) as Hnot; [| lia].
    intros H. apply (py_int_ge_pos tc 2 eq_refl) in H.
    exact (Qlt_not_le _ _ Hlt H).
  - intros Hlo Hhi. apply H2. now apply (py_int_between tc 2).
  - intros Hlo Hhi. apply H3. now apply (py_int_between tc 3).
  - intros Hlo Hhi. apply H4. now apply (py_int_between tc 4).
  - intros Hlo. apply H5. now apply (py_int_ge_pos tc 5).
Qed.

(** A true count of 2.5 is worth two units, one of -0.5 the minimum. *)
Lemma betting_index_thresholds_witness :
  HiLoCounter.get_betting_index (5 # 2) = "2_UNITS"%string /\
  HiLoCounter.get_betting_index (- (1 # 2)) = "MIN_BET"%string.
Proof.
  destruct (betting_index_thresholds (5 # 2)) as (_ & H2 & _).
  destruct (betting_index_thresholds (- (1 # 2))) as (Hmin & _).
  split; [apply H2 | apply Hmin]; reflexivity || (vm_compute; discriminate).
Defined.

(** * Index plays *)

(** X18. [should_deviate_from_basic_strategy] never deviates at a true count
    of -2 or less; against a dealer Ace it says INSURE exactly from a true
    count of 3 up and otherwise nothing. *)
Theorem deviation_low_counts_and_insurance (tc : Q) (player_total : Z)
  (is_soft : bool) :
  (forall dealer_upcard,
     (tc <= -2)%Q ->
     HiLoCounter.should_deviate_from_basic_strategy tc player_total
       dealer_upcard is_soft = None) /\
  ((3 <= tc)%Q ->
   HiLoCounter.should_deviate_from_basic_strategy tc player_total 11 is_soft
   = Some "INSURE"%string) /\
  ((tc < 3)%Q ->
   HiLoCounter.should_deviate_from_basic_strategy tc player_total 11 is_soft
   = None).
Proof.
  split; [| split].
  - intros dealer_upcard Hlow.
    assert (py_int tc < -1) as Ht.
    { assert (~ -1 <= py_int tc) as Hnot; [| lia].
      intros H. apply (py_int_ge_nonpos tc (-1)) in H; [| lia].
      exact (Qlt_not_le _ _ H Hlow). }
    unfold HiLoCounter.should_deviate_from_basic_strategy.
    destruct (Z.geb_spec (py_int tc) 3), (Z.geb_spec (py_int tc) 0),
      (Z.geb_spec (py_int tc) 4), (Z.geb_spec (py_int tc) 2),
      (Z.geb_spec (py_int tc) (-1)), (Z.geb_spec (py_int tc) 5); try lia.
    rewrite !andb_false_r. reflexivity.
  - intros Hhigh. apply (py_int_ge_pos tc 3 eq_refl) in Hhigh.
    unfold HiLoCounter.should_deviate_from_basic_strategy.
    destruct (Z.geb_spec (py_int tc) 3); [reflexivity | lia].
  - intros Hlt.
    assert (py_int tc < 3) as Ht.
    { assert (~ 3 <= py_int tc) as Hnot; [| lia].
      intros H. apply (py_int_ge_pos tc 3 eq_refl) in H.
      exact (Qlt_not_le _ _ Hlt H). }
    unfold HiLoCounter.should_deviate_from_basic_strategy.
    destruct (Z.geb_spec (py_int tc) 3); [lia|].
    cbn [Z.eqb Pos.eqb andb]. rewrite !andb_false_r. reflexivity.
Qed.

(** X19. The index plays with a threshold of 0 or -1 are taken over a whole
    unit below it, because the true count is truncated towards zero: a
    hard 16 against a ten stands at every true count above -1, and 13
    against a 2 at every true count above -2. *)
Theorem deviation_thresholds_truncate (tc : Q) :
  ((-1 < tc)%Q ->
   HiLoCounter.should_deviate_from_basic_strategy tc 16 10 false
   = Some "STAND"%string) /\
  ((tc <= -1)%Q ->
   HiLoCounter.should_deviate_from_basic_strategy tc 16 10 false = None) /\
  (forall is_soft,
     (-2 < tc)%Q ->
     HiLoCounter.should_deviate_from_basic_strategy tc 13 2 is_soft
     = Some "STAND"%string).
Proof.
  unfold HiLoCounter.should_deviate_from_basic_strategy.
  cbn [Z.eqb Pos.eqb andb negb].
  split; [| split].
  - intros H. apply (py_int_ge_nonpos tc 0) in H; [| lia].
    destruct (Z.geb_spec (py_int tc) 0); [reflexivity | lia].
  - intros Hle.
    assert (~ 0 <= py_int tc) as Hnot.
    { intros H. apply (py_int_ge_nonpos tc 0) in H; [| lia].
      exact (Qlt_not_le _ _ H Hle). }
    destruct (Z.geb_spec (py_int tc) 0); [lia | reflexivity].
  - intros is_soft H. apply (py_int_ge_nonpos tc (-1)) in H; [| lia].
    destruct (Z.geb_spec (py_int tc) (-1)); [reflexivity | lia].
Qed.

(** At a true count of -0.5 a hard 16 against a ten already stands. *)
Lemma deviation_thresholds_truncate_witness :
  HiLoCounter.should_deviate_from_basic_strategy (- (1 # 2)) 16 10 false
  = Some "STAND"%string.
Proof.
  apply (deviation_thresholds_truncate (- (1 # 2))). reflexivity.
Defined.

(** * The spread bet *)

Lemma py_min_spec (a b : Q) :
  (py_min a b <= a)%Q /\ (py_min a b <= b)%Q /\
  (py_min a b = a \/ py_min a b = b).
Proof.
  unfold py_min. destruct (Qlt_le_dec b a); repeat split; try lra; tauto.
Qed.

Lemma py_max_spec (a b : Q) :
  (a <= py_max a b)%Q /\ (b <= py_max a b)%Q /\
  (py_max a b = a \/ py_max a b = b).
Proof.
  unfold py_max. destruct (Qlt_le_dec a b); repeat split; try lra; tauto.
Qed.

(** The clamp [max(lo, min(x, hi))] grows with [x]. *)
Lemma clamp_mono (lo hi x y : Q) :
  (x <= y)%Q -> (py_max lo (py_min x hi) <= py_max lo (py_min y hi))%Q.
Proof.
  intros Hxy. unfold py_max, py_min.
  destruct (Qlt_le_dec hi x), (Qlt_le_dec hi y);
    repeat match goal with
           | |- context [Qlt_le_dec ?a ?b] => destruct (Qlt_le_dec a b)
           end; lra.
Qed.

Lemma spread_units_mono (t1 t2 spread : Z) :
  6 <= spread -> t1 <= t2 ->
  (if t1 <=? 0 then 1
   else if t1 =? 1 then 1
   else if t1 =? 2 then 2
   else if t1 =? 3 then 4
   else if t1 =? 4 then 6
   else if t1 >=? 5 then Z.min 8 spread else 1)
  <= (if t2 <=? 0 then 1
      else if t2 =? 1 then 1
      else if t2 =? 2 then 2
      else if t2 =? 3 then 4
      else if t2 =? 4 then 6
      else if t2 >=? 5 then Z.min 8 spread else 1).
Proof.
  intros Hs Ht.
  destruct (Z.leb_spec t1 0), (Z.eqb_spec t1 1), (Z.eqb_spec t1 2),
    (Z.eqb_spec t1 3), (Z.eqb_spec t1 4), (Z.geb_spec t1 5);
    try (exfalso; lia);
    destruct (Z.leb_spec t2 0), (Z.eqb_spec t2 1), (Z.eqb_spec t2 2),
      (Z.eqb_spec t2 3), (Z.eqb_spec t2 4), (Z.geb_spec t2 5);
    lia.
Qed.

(** X20. [simple_spread_bet] always lies between the strategy's own
    [min_bet] and [max_bet] (when these are in order), whatever [min_bet]
    the caller passes; and with a unit that is not negative and a spread of
    at least 6 it never goes down as the true count goes up. *)
Theorem simple_spread_bet_clamped_and_monotone (self : BettingStrategy.t)
  (min_bet : Q) (spread : Z) :
  (forall tc,
     (BettingStrategy.min_bet self <= BettingStrategy.max_bet self)%Q ->
     (BettingStrategy.min_bet self
      <= BettingStrategy.simple_spread_bet self tc min_bet spread)%Q /\
     (BettingStrategy.simple_spread_bet self tc min_bet spread
      <= BettingStrategy.max_bet self)%Q) /\
  (forall tc1 tc2,
     (0 <= min_bet)%Q -> 6 <= spread -> (tc1 <= tc2)%Q ->
     (BettingStrategy.simple_spread_bet self tc1 min_bet spread
      <= BettingStrategy.simple_spread_bet self tc2 min_bet spread)%Q).
Proof.
  split.
  - intros tc Horder. unfold BettingStrategy.simple_spread_bet.
    match goal with
    | |- context [py_max ?lo (py_min ?x ?hi)] =>
        destruct (py_min_spec x hi) as (_ & Hhi & _);
        set (m := py_min x hi) in *;
        destruct (py_max_spec lo m) as (Hlo & _ & [E | E])
    end; rewrite E in *; split; (assumption || apply Qle_refl).
  - intros tc1 tc2 Hunit Hspread Htc.
    unfold BettingStrategy.simple_spread_bet.
    apply clamp_mono.
    pose proof (spread_units_mono _ _ spread Hspread (py_int_mono _ _ Htc))
      as Hu.
    rewrite Zle_Qle in Hu.
    rewrite !(Qmult_comm min_bet).
    now apply Qmult_le_compat_r.
Qed.

(** A unit of 25 at true counts 1.5 and 3.5 under the default limits. *)
Lemma simple_spread_bet_clamped_and_monotone_witness :
  let self := BettingStrategy.init 10000 (1 # 2) in
  (BettingStrategy.simple_spread_bet self (3 # 2) 25 8
   <= BettingStrategy.simple_spread_bet self (7 # 2) 25 8)%Q.
Proof.
  cbv zeta.
  apply (simple_spread_bet_clamped_and_monotone
           (BettingStrategy.init 10000 (1 # 2)) 25 8);
    vm_compute; discriminate.
Defined.

(** * The score keeper *)

Lemma keeping_score_invariant (s : CountingTracker.t) :
  keeping_score s ->
  CountingTracker.correct_counts s
  + Z.of_nat (length (CountingTracker.count_errors s))
  = CountingTracker.total_counts s /\
  0 <= CountingTracker.correct_counts s /\
  Forall (fun e => 0 < e) (CountingTracker.count_errors s).
Proof.
  induction 1 as [| s _ _ | s actual guessed time_taken _ IH | s a g _ IH].
  - cbn. repeat split; try lia. constructor.
  - cbn. repeat split; try lia. constructor.
  - destruct IH as (Hsum & Hpos & Hall).
    unfold CountingTracker.record_count_attempt.
    cbn [CountingTracker.total_counts CountingTracker.correct_counts
         CountingTracker.count_errors].
    destruct (Z.eqb_spec (Z.abs (actual - guessed)) 0) as [E | E].
    + repeat split; try lia. exact Hall.
    + rewrite length_app. cbn [length]. repeat split; try lia.
      apply Forall_app. split; [exact Hall|]. constructor; [lia | constructor].
  - exact IH.
Qed.

(** X21. However attempts are recorded and the keeper reset, every attempt
    is either correct or has its error, a positive number, in
    [count_errors]; so [correct_counts] never exceeds [total_counts] and
    [get_accuracy] returns, without a division fault, a percentage between
    0 and 100. *)
Theorem score_keeper_consistent (s : CountingTracker.t) :
  keeping_score s ->
  CountingTracker.correct_counts s
  + Z.of_nat (length (CountingTracker.count_errors s))
  = CountingTracker.total_counts s /\
  0 <= CountingTracker.correct_counts s <= CountingTracker.total_counts s /\
  Forall (fun e => 0 < e) (CountingTracker.count_errors s) /\
  exists q, CountingTracker.get_accuracy s = Ok q /\ (0 <= q)%Q /\ (q <= 100)%Q.
Proof.
  intros Hs. destruct (keeping_score_invariant s Hs) as (Hsum & Hpos & Hall).
  split; [exact Hsum|]. split; [lia|]. split; [exact Hall|].
  unfold CountingTracker.get_accuracy, HiLoCounter.truediv.
  destruct (Z.eqb_spec (CountingTracker.total_counts s) 0) as [E | E].
  - exists 0%Q. repeat split; lra.
  - assert (0 < CountingTracker.total_counts s) as Ht by lia.
    destruct (Qeq_bool (inject_Z (CountingTracker.total_counts s)) 0) eqn:Eq.
    + apply Qeq_bool_iff in Eq. unfold Qeq in Eq. cbn in Eq. lia.
    + cbn [bind]. eexists. split; [reflexivity|].
      assert (CountingTracker.correct_counts s
              <= CountingTracker.total_counts s) as Hle by lia.
      destruct (CountingTracker.total_counts s) as [|t|t]; try lia.
      unfold Qle, Qdiv, Qmult, Qinv, inject_Z. cbn [Qnum Qden].
      split; nia.
Qed.

(** Two attempts, one of them exact: 50 percent. *)
Lemma score_keeper_consistent_witness :
  let s := CountingTracker.record_count_attempt
             (CountingTracker.record_count_attempt CountingTracker.init 4 4 0)
             3 5 (3 # 2) in
  exists q, CountingTracker.get_accuracy s = Ok q /\ (0 <= q)%Q /\ (q <= 100)%Q.
Proof.
  cbv zeta.
  apply (score_keeper_consistent
           (CountingTracker.record_count_attempt
              (CountingTracker.record_count_attempt CountingTracker.init 4 4 0)
              3 5 (3 # 2))).
  apply score_count, score_count, score_init.
Defined.

(** * True count of a shoe *)

Lemma get_true_count_positive (c : HiLoCounter.t) (d : Q) :
  (0 < d)%Q ->
  HiLoCounter.get_true_count c d
  = Ok (inject_Z (HiLoCounter.running_count c) / d)%Q.
Proof.
  intros Hpos. unfold HiLoCounter.get_true_count, HiLoCounter.truediv.
  destruct (Qle_bool d 0) eqn:Ele.
  - apply Qle_bool_iff in Ele. exfalso. exact (Qlt_not_le _ _ Hpos Ele).
  - destruct (Qeq_bool d 0) eqn:Eeq; [| reflexivity].
    apply Qeq_bool_iff in Eeq. rewrite Eeq in Hpos.
    exfalso. exact (Qlt_irrefl _ Hpos).
Qed.

(** X22. The true count read off a shoe is 0 when the shoe is empty and
    otherwise the running count times 52 over the number of cards left; it
    never faults. *)
Theorem true_count_from_deck (c : HiLoCounter.t) (d : Deck.t) :
  (Deck.cards d = [] -> HiLoCounter.get_true_count_from_deck c d = Ok 0%Q) /\
  (Deck.cards d <> [] ->
   exists q,
     HiLoCounter.get_true_count_from_deck c d = Ok q /\
     (q == inject_Z (52 * HiLoCounter.running_count c)
           / inject_Z (Z.of_nat (Deck.cards_remaining d)))%Q).
Proof.
  unfold HiLoCounter.get_true_count_from_deck, Deck.decks_remaining,
    Deck.cards_remaining.
  split.
  - intros ->. reflexivity.
  - intros Hne.
    assert (0 < Z.of_nat (length (Deck.cards d))) as Hn.
    { destruct (Deck.cards d); [contradiction | cbn [length]; lia]. }
    assert (0 < inject_Z (Z.of_nat (length (Deck.cards d))))%Q as Hq.
    { rewrite (Zlt_Qlt 0) in Hn. exact Hn. }
    rewrite get_true_count_positive.
    + eexists. split; [reflexivity|].
      rewrite inject_Z_mult. field.
      intros E. rewrite E in Hq. exact (Qlt_irrefl _ Hq).
    + apply Qlt_shift_div_l; [reflexivity|]. lra.
Qed.

(** A running count of +6 with 156 cards left: a true count of 2. *)
Lemma true_count_from_deck_witness :
  let d := Deck.mk 6 (Deck.fresh_cards 3) [] 78 in
  exists q,
    HiLoCounter.get_true_count_from_deck (HiLoCounter.mk 6 156 6) d = Ok q /\
    (q == 2)%Q.
Proof.
  cbv zeta.
  destruct (true_count_from_deck (HiLoCounter.mk 6 156 6)
              (Deck.mk 6 (Deck.fresh_cards 3) [] 78)) as [_ H].
  destruct H as (q & Hq & Heq); [discriminate|].
  exists q. split; [exact Hq|]. rewrite Heq. reflexivity.
Defined.

(** * The quiz hand *)

(** X23. [generate_random_hand] never raises: the hand it returns holds the
    last two cards of a newly shuffled six-deck shoe, in the order they
    were dealt, and the upcard is the card before them. *)
Theorem generate_random_hand_succeeds (rng : Deck.Shuffle) :
  exists c1 c2 up rest,
    Deck.shuffle rng (Deck.fresh_cards 6) = rest ++ [up; c2; c1] /\
    BasicStrategyTrainer.generate_random_hand rng
    = Ok (hand_of [c1; c2], up).
Proof.
  destruct (four_deals (Deck.init rng 6))
    as (c1 & d1 & c2 & d2 & c3 & d3 & c4 & d4 & H1 & H2 & H3 & _ & Hcards).
  { pose proof (reset_cards_remaining rng (Deck.mk 6 [] [] 0)) as Hr.
    unfold Deck.cards_remaining in Hr. unfold Deck.init. rewrite Hr.
    cbn. lia. }
  exists c1, c2, c3, (Deck.cards d4 ++ [c4]).
  split.
  - rewrite <- app_assoc. exact Hcards.
  - unfold BasicStrategyTrainer.generate_random_hand.
    rewrite H1. cbn [bind]. rewrite H2. cbn [bind]. rewrite H3. reflexivity.
Qed.

(** * When the shoe asks for a shuffle *)

Lemma since_reset_sizes (rng : Deck.Shuffle) (d : Deck.t) :
  since_reset rng d ->
  (length (Deck.cards d) + length (Deck.discards d)
   = 52 * Deck.num_decks d)%nat.
Proof.
  induction 1 as [d | d c d' Hd IH Hdeal].
  - pose proof (reset_cards_remaining rng d) as Hr.
    unfold Deck.cards_remaining in Hr. rewrite Hr. cbn. lia.
  - pose proof (deal_card_length _ _ _ Hdeal) as Hlen.
    apply deal_card_ok in Hdeal. destruct Hdeal as (_ & Hdis & Hn & _).
    rewrite Hdis, Hn, length_app. cbn [length]. lia.
Qed.

(** X24. Between two resets [needs_shuffle()] turns true exactly when 39
    cards per deck, three quarters of the shoe, have been dealt. *)
Theorem needs_shuffle_after_three_quarters (rng : Deck.Shuffle) (d : Deck.t) :
  since_reset rng d ->
  (Deck.needs_shuffle d = true
   <-> (39 * Deck.num_decks d <= length (Deck.discards d))%nat).
Proof.
  intros Hd. unfold Deck.needs_shuffle.
  rewrite (since_reset_cut _ _ Hd). pose proof (since_reset_sizes _ _ Hd).
  rewrite Z.leb_le. lia.
Qed.

(** A fresh single deck does not ask for a shuffle after two cards. *)
Lemma needs_shuffle_after_three_quarters_witness :
  exists cs d,
    deal_cards 2 (Deck.init no_shuffle 1) = Ok (cs, d) /\
    (Deck.needs_shuffle d = true
     <-> (39 * Deck.num_decks d <= length (Deck.discards d))%nat).
Proof.
  eexists _, _. split; [vm_compute; reflexivity|].
  apply (needs_shuffle_after_three_quarters no_shuffle).
  eapply after_deal;
    [eapply after_deal; [apply (after_reset no_shuffle (Deck.mk 1 [] [] 0))|] |];
    vm_compute; reflexivity.
Defined.

(** * Betting limits *)

(** X25. [place_bet] refuses, with a [ValueError], exactly the amounts
    below [min_bet] or above [max_bet]; both limits themselves are
    accepted. An accepted amount becomes the bet of the first hand and
    nothing else changes; on a game that has no hand yet (no [new_round])
    it fails with an [IndexError]. *)
Theorem place_bet_limits (g : BlackjackGame.t) (amount : Q) :
  ((amount < GameRules.min_bet (BlackjackGame.rules g))%Q
   \/ (GameRules.max_bet (BlackjackGame.rules g) < amount)%Q ->
   exists msg, BlackjackGame.place_bet g amount = Raise (ValueError msg)) /\
  ((GameRules.min_bet (BlackjackGame.rules g) <= amount)%Q ->
   (amount <= GameRules.max_bet (BlackjackGame.rules g))%Q ->
   match BlackjackGame.player_hands g with
   | [] => BlackjackGame.place_bet g amount = Raise IndexError
   | h :: hs =>
       BlackjackGame.place_bet g amount
       = Ok (BlackjackGame.set_player_hands g (Hand.set_bet h amount :: hs))
   end).
Proof.
  unfold BlackjackGame.place_bet. split.
  - intros [Hlow | Hhigh].
    + destruct (Qlt_le_dec amount _) as [_ | Hle];
        [eexists; reflexivity | exfalso; exact (Qlt_not_le _ _ Hlow Hle)].
    + destruct (Qlt_le_dec amount _); [eexists; reflexivity|].
      destruct (Qlt_le_dec _ amount) as [_ | Hle];
        [eexists; reflexivity | exfalso; exact (Qlt_not_le _ _ Hhigh Hle)].
  - intros Hmin Hmax.
    destruct (Qlt_le_dec amount _) as [Hlt | _];
      [exfalso; exact (Qlt_not_le _ _ Hlt Hmin)|].
    destruct (Qlt_le_dec _ amount) as [Hlt | _];
      [exfalso; exact (Qlt_not_le _ _ Hlt Hmax)|].
    destruct (BlackjackGame.player_hands g); reflexivity.
Qed.

(** The table minimum of 10 is accepted in a new round. *)
Lemma place_bet_limits_witness :
  let g := BlackjackGame.new_round no_shuffle
             (BlackjackGame.init no_shuffle GameRules.default) in
  exists g',
    BlackjackGame.place_bet g 10 = Ok g' /\
    map Hand.bet (BlackjackGame.player_hands g') = [10%Q].
Proof.
  cbv zeta.
  destruct (place_bet_limits
              (BlackjackGame.new_round no_shuffle
                 (BlackjackGame.init no_shuffle GameRules.default)) 10)
    as [_ Hok].
  eexists. split; [apply Hok; vm_compute; discriminate | reflexivity].
Defined.

(** * After the third card *)

(** X26. Once the current hand, of two cards or more, has taken a card, it
    can be neither doubled nor split nor surrendered (each raises a
    [ValueError]) and it is not a blackjack. *)
Theorem no_special_play_after_hit (g : BlackjackGame.t) (hand : Hand.t)
  (c : Card.t) (g' : BlackjackGame.t) :
  BlackjackGame.get_current_hand g = Ok hand ->
  (2 <= length (Hand.cards hand))%nat ->
  BlackjackGame.hit g = Ok (c, g') ->
  BlackjackGame.get_current_hand g' = Ok (Hand.add_card hand c) /\
  Hand.is_blackjack (Hand.add_card hand c) = false /\
  (exists msg, BlackjackGame.double_down g' = Raise (ValueError msg)) /\
  (exists msg, BlackjackGame.split g' = Raise (ValueError msg)) /\
  (exists msg, BlackjackGame.surrender g' = Raise (ValueError msg)).
Proof.
  intros Hcur Hlen Hhit.
  assert (BlackjackGame.get_current_hand g' = Ok (Hand.add_card hand c))
    as Hcur'.
  { unfold BlackjackGame.hit in Hhit. rewrite Hcur in Hhit.
    cbn [bind] in Hhit.
    destruct (Deck.deal_card _) as [[c' d']|e]; [| discriminate Hhit].
    cbn [bind] in Hhit. injection Hhit as <- <-.
    apply (get_put_current_hand _ hand). exact Hcur. }
  assert ((length (Hand.cards (Hand.add_card hand c)) =? 2)%nat = false)
    as Hthree.
  { unfold Hand.add_card, Hand.set_cards. cbn [Hand.cards].
    rewrite length_app. cbn [length]. apply Nat.eqb_neq. lia. }
  split; [exact Hcur'|]. split; [| split; [| split]].
  - unfold Hand.is_blackjack. now rewrite Hthree.
  - unfold BlackjackGame.double_down. rewrite Hcur'. cbn [bind].
    unfold Hand.can_double. rewrite Hthree. eexists. reflexivity.
  - unfold BlackjackGame.split. rewrite Hcur'. cbn [bind].
    unfold Hand.can_split, Hand.is_pair. rewrite Hthree. eexists. reflexivity.
  - unfold BlackjackGame.surrender. rewrite Hcur'. cbn [bind].
    rewrite Hthree. eexists. reflexivity.
Qed.

(** A pair of 8s takes a 2: no double, split or surrender any more. *)
Lemma no_special_play_after_hit_witness :
  let g := game_at GameRules.default [card Two]
             [hand_with_bet [card Eight; card Eight] 100]
             (hand_of [card Ten; card Nine]) O in
  exists g',
    BlackjackGame.hit g = Ok (card Two, g') /\
    (exists msg, BlackjackGame.split g' = Raise (ValueError msg)).
Proof.
  cbv zeta. eexists. split; [reflexivity|].
  eapply (no_special_play_after_hit
            (game_at GameRules.default [card Two]
               [hand_with_bet [card Eight; card Eight] 100]
               (hand_of [card Ten; card Nine]) O)
            (hand_with_bet [card Eight; card Eight] 100) (card Two));
    [reflexivity | cbn; lia | reflexivity].
Defined.

(** * Session bookkeeping *)

Lemma percentage_in_range (part whole : Z) :
  0 <= part <= whole -> 0 < whole ->
  exists q,
    (q0 <- HiLoCounter.truediv (inject_Z part) (inject_Z whole) ;;
     Ok (q0 * 100)%Q) = Ok q /\ (0 <= q)%Q /\ (q <= 100)%Q.
Proof.
  intros Hpart Hwhole. unfold HiLoCounter.truediv.
  destruct (Qeq_bool (inject_Z whole) 0) eqn:Eq.
  - apply Qeq_bool_iff in Eq. unfold Qeq in Eq. cbn in Eq. lia.
  - cbn [bind]. eexists. split; [reflexivity|].
    destruct whole as [|t|t]; try lia.
    unfold Qle, Qdiv, Qmult, Qinv, inject_Z. cbn [Qnum Qden].
    split; nia.
Qed.

Lemma recording_invariant (s : SessionTracker.t) :
  recording s ->
  SessionTracker.hands_won s + SessionTracker.hands_lost s
  + SessionTracker.hands_pushed s = SessionTracker.total_hands s /\
  0 <= SessionTracker.hands_won s /\ 0 <= SessionTracker.hands_lost s /\
  0 <= SessionTracker.hands_pushed s /\
  SessionTracker.total_hands s
  = Z.of_nat (length (SessionTracker.hands_results s)) /\
  length (SessionTracker.bets s) = length (SessionTracker.hands_results s) /\
  length (SessionTracker.true_counts s)
  = length (SessionTracker.hands_results s) /\
  SessionTracker.basic_strategy_total s = SessionTracker.total_hands s /\
  0 <= SessionTracker.basic_strategy_correct s
  <= SessionTracker.basic_strategy_total s.
Proof.
  induction 1 as [bankroll now id | s now bet profit pt dt tc rc action
                                     correct bj bust sur _ IH].
  - cbn. repeat split; lia.
  - destruct IH as (Hsum & Hw & Hl & Hp & Htot & Hb & Ht & Hbs & Hc).
    unfold SessionTracker.record_hand.
    cbn [SessionTracker.hands_won SessionTracker.hands_lost
         SessionTracker.hands_pushed SessionTracker.total_hands
         SessionTracker.hands_results SessionTracker.bets
         SessionTracker.true_counts SessionTracker.basic_strategy_total
         SessionTracker.basic_strategy_correct].
    rewrite !length_app. cbn [length].
    destruct (Qlt_le_dec 0 profit), (Qlt_le_dec profit 0), correct;
      repeat split; lia.
Qed.

(** X27. In a session every recorded hand is counted once as won, lost or
    pushed, and once in the list of results, of bets, of true counts and in
    the basic-strategy total; so the win rate and the strategy accuracy
    are returned without a division fault and lie between 0 and 100. *)
Theorem session_counts_consistent (s : SessionTracker.t) :
  recording s ->
  SessionTracker.hands_won s + SessionTracker.hands_lost s
  + SessionTracker.hands_pushed s = SessionTracker.total_hands s /\
  SessionTracker.total_hands s
  = Z.of_nat (length (SessionTracker.hands_results s)) /\
  length (SessionTracker.bets s) = length (SessionTracker.hands_results s) /\
  length (SessionTracker.true_counts s)
  = length (SessionTracker.hands_results s) /\
  SessionTracker.basic_strategy_total s = SessionTracker.total_hands s /\
  (exists q, SessionTracker.get_win_rate s = Ok q /\ (0 <= q)%Q /\ (q <= 100)%Q) /\
  (exists q, SessionTracker.get_basic_strategy_accuracy s = Ok q /\
             (0 <= q)%Q /\ (q <= 100)%Q).
Proof.
  intros Hs.
  destruct (recording_invariant s Hs)
    as (Hsum & Hw & Hl & Hp & Htot & Hb & Ht & Hbs & Hc).
  repeat (split; [assumption|]).
  split.
  - unfold SessionTracker.get_win_rate.
    destruct (Z.eqb_spec (SessionTracker.total_hands s) 0).
    + exists 0%Q. repeat split; lra.
    + apply percentage_in_range; lia.
  - unfold SessionTracker.get_basic_strategy_accuracy.
    destruct (Z.eqb_spec (SessionTracker.basic_strategy_total s) 0).
    + exists 100%Q. repeat split; lra.
    + apply percentage_in_range; lia.
Qed.

(** A win and a push: a win rate of 50. *)
Lemma session_counts_consistent_witness :
  let s := SessionTracker.record_hand
             (SessionTracker.record_hand
                (SessionTracker.init 10000 0 "session_0") 1 100 100 19 18 0 0
                "H" true false false false)
             2 100 0 18 18 0 0 "S" true false false false in
  SessionTracker.hands_won s + SessionTracker.hands_lost s
  + SessionTracker.hands_pushed s = SessionTracker.total_hands s /\
  SessionTracker.get_win_rate s = Ok (inject_Z 1 / inject_Z 2 * 100)%Q.
Proof.
  cbv zeta.
  destruct (session_counts_consistent
              (SessionTracker.record_hand
                 (SessionTracker.record_hand
                    (SessionTracker.init 10000 0 "session_0") 1 100 100 19 18
                    0 0 "H" true false false false)
                 2 100 0 18 18 0 0 "S" true false false false))
    as (Hsum & _).
  - apply recording_hand, recording_hand, recording_init.
  - split; [exact Hsum | reflexivity].
Defined.
